(** * ChatContext.jsx: the conversation / message state controller

    A shallow embedding of [frontend/src/context/ChatContext.jsx] (the
    [ChatProvider] component) and the properties of its handlers.

    How the component is read:

    - The seven [useState] cells form the record [RState].  A handler is a
      closure created by one render: every state variable it mentions
      ([messages], [conversations], [activeConversation], ...) is the value
      that render saw, also after an [await].  The [setX] calls write the
      cells of the running component.  A handler therefore takes the
      closure environment [env : RState] next to the [World] it updates; a
      handler that starts from a user action has [env = st w].
    - An [async] handler is cut at its single [await]: the [_start] half
      runs up to the call of the reply operation and leaves a frame (the
      closure and its locals), the [_resume] half runs from the settled
      promise to the end of [finally].
    - The updates of one handler half are committed together by the
      render that follows it ([render]); that render runs the effect that
      reloads the message log when [activeConversation] or
      [processingConversationId] changed.
    - [localStorage] is a finite map from keys to stored values.
    - [uuidv4()], [new Date().toISOString()] and [new AbortController()]
      are read from sequences indexed by a counter of the calls made. *)

From stdpp Require Import gmap strings list fin_maps pretty.

Local Open Scope string_scope.
Local Open Scope list_scope.

(** ** Data model *)

Inductive Sender := user | ai.
Inductive Feedback := positive | negative.

Record Conversation := mkConversation {
  conv_id : string;
  title : string;
  conv_timestamp : string;
  userId : option string
}.

Record Message := mkMessage {
  msg_id : string;
  content : string;
  sender : Sender;
  msg_timestamp : string;
  language : option string;
  feedback : option Feedback;
  isError : bool
}.

#[global] Instance Sender_eq_dec : EqDecision Sender.
Proof. solve_decision. Defined.
#[global] Instance Feedback_eq_dec : EqDecision Feedback.
Proof. solve_decision. Defined.
#[global] Instance Conversation_eq_dec : EqDecision Conversation.
Proof. solve_decision. Defined.
#[global] Instance Message_eq_dec : EqDecision Message.
Proof. solve_decision. Defined.

(** [{ ...conv, title }] *)
Definition with_title (t : string) (c : Conversation) : Conversation :=
  {| conv_id := conv_id c; title := t;
     conv_timestamp := conv_timestamp c; userId := userId c |}.

(** [{ ...conv, timestamp: ... }] *)
Definition with_timestamp (t : string) (c : Conversation) : Conversation :=
  {| conv_id := conv_id c; title := title c;
     conv_timestamp := t; userId := userId c |}.

(** [{ ...msg, feedback: ... }] *)
Definition with_feedback (f : Feedback) (m : Message) : Message :=
  {| msg_id := msg_id m; content := content m; sender := sender m;
     msg_timestamp := msg_timestamp m; language := language m;
     feedback := Some f; isError := isError m |}.

(** ** Storage *)

(** What a key of [localStorage] holds: a raw string written by
    [localStorage.setItem], or the JSON of a conversation sequence or of a
    message sequence written by [saveToLocalStorage]. *)
Inductive Stored :=
| RawString (s : string)
| JsonConversations (l : list Conversation)
| JsonMessages (l : list Message).

#[global] Instance Stored_eq_dec : EqDecision Stored.
Proof. solve_decision. Defined.

(** Modelled from the spec: [utils/localStorage.js] ([saveToLocalStorage],
    [getFromLocalStorage]) is not among the sources.  The spec's Storage
    Adapter is a synchronous get/set over string keys of JSON-serializable
    values; a key that is absent (or does not hold a sequence of the
    expected kind) reads as the default the caller supplies with
    [|| []]. *)
Definition saveToLocalStorage (key : string) (v : Stored)
    (ls : gmap string Stored) : gmap string Stored :=
  <[key := v]> ls.

Definition getFromLocalStorage (key : string) (ls : gmap string Stored)
    : option Stored :=
  ls !! key.

(** [getFromLocalStorage(storageKey) || []] at a message key *)
Definition stored_messages (o : option Stored) : list Message :=
  match o with
  | Some (JsonMessages l) => l
  | _ => []
  end.

(** [getFromLocalStorage(storageKey) || []] at a conversation key *)
Definition stored_conversations (o : option Stored) : list Conversation :=
  match o with
  | Some (JsonConversations l) => l
  | _ => []
  end.

(** Template literals of the key layout. *)
Definition conversations_key (u : string) : string := u +:+ "_conversations".
Definition active_key (u : string) : string := u +:+ "_activeConversation".
Definition messages_key (u cid : string) : string :=
  u +:+ "_messages_" +:+ cid.
Definition user_prefix (u : string) : string := u +:+ "_".

(** [localStorage.getItem("preferredLanguage") || "en"]: the empty string
    is falsy. *)
Definition preferredLanguage_of (ls : gmap string Stored) : string :=
  match ls !! "preferredLanguage" with
  | Some (RawString s) => if decide (s = "") then "en" else s
  | _ => "en"
  end.

(** ** Component state *)

Record RState := mkRState {
  messages : list Message;
  conversations : list Conversation;
  activeConversation : option Conversation;
  isLoading : bool;
  lastUserMessage : string;
  abortController : option nat;
  processingConversationId : option string
}.

(** The running component and its surroundings.
    - [aborted]: the controllers on which [abort()] was called;
    - [ticks]: how many values were drawn from [uuidv4], the clock and
      [new AbortController()];
    - [activeRef]: the identity of the object held by
      [activeConversation]; React compares effect dependencies with
      [Object.is], and every object the handlers store there is a new
      literal, a spread copy, or a conversation whose id differs from the
      current one's;
    - [rendered]: the dependencies [activeConversation,
      processingConversationId] for which the message effect last ran. *)
Record World := mkWorld {
  st : RState;
  localStorage : gmap string Stored;
  aborted : gset nat;
  ticks : nat;
  activeRef : nat;
  rendered : nat * option string
}.

Definition with_st (f : RState → RState) (w : World) : World :=
  {| st := f (st w); localStorage := localStorage w; aborted := aborted w;
     ticks := ticks w; activeRef := activeRef w; rendered := rendered w |}.

Definition with_storage (f : gmap string Stored → gmap string Stored)
    (w : World) : World :=
  {| st := st w; localStorage := f (localStorage w); aborted := aborted w;
     ticks := ticks w; activeRef := activeRef w; rendered := rendered w |}.

Definition with_ticks (n : nat) (w : World) : World :=
  {| st := st w; localStorage := localStorage w; aborted := aborted w;
     ticks := n; activeRef := activeRef w; rendered := rendered w |}.

Definition tick (w : World) : World := with_ticks (S (ticks w)) w.

(** [controller.abort()] *)
Definition abort (k : nat) (w : World) : World :=
  {| st := st w; localStorage := localStorage w;
     aborted := {[k]} ∪ aborted w;
     ticks := ticks w; activeRef := activeRef w; rendered := rendered w |}.

Definition setMessages (v : list Message) : World → World :=
  with_st (λ s, {| messages := v; conversations := conversations s;
    activeConversation := activeConversation s; isLoading := isLoading s;
    lastUserMessage := lastUserMessage s;
    abortController := abortController s;
    processingConversationId := processingConversationId s |}).

Definition setConversations (v : list Conversation) : World → World :=
  with_st (λ s, {| messages := messages s; conversations := v;
    activeConversation := activeConversation s; isLoading := isLoading s;
    lastUserMessage := lastUserMessage s;
    abortController := abortController s;
    processingConversationId := processingConversationId s |}).

Definition setIsLoading (v : bool) : World → World :=
  with_st (λ s, {| messages := messages s; conversations := conversations s;
    activeConversation := activeConversation s; isLoading := v;
    lastUserMessage := lastUserMessage s;
    abortController := abortController s;
    processingConversationId := processingConversationId s |}).

Definition setLastUserMessage (v : string) : World → World :=
  with_st (λ s, {| messages := messages s; conversations := conversations s;
    activeConversation := activeConversation s; isLoading := isLoading s;
    lastUserMessage := v;
    abortController := abortController s;
    processingConversationId := processingConversationId s |}).

Definition setAbortController (v : option nat) : World → World :=
  with_st (λ s, {| messages := messages s; conversations := conversations s;
    activeConversation := activeConversation s; isLoading := isLoading s;
    lastUserMessage := lastUserMessage s;
    abortController := v;
    processingConversationId := processingConversationId s |}).

Definition setProcessingConversationId (v : option string) : World → World :=
  with_st (λ s, {| messages := messages s; conversations := conversations s;
    activeConversation := activeConversation s; isLoading := isLoading s;
    lastUserMessage := lastUserMessage s;
    abortController := abortController s;
    processingConversationId := v |}).

(** [setActiveConversation(v)].  The stored reference changes unless
    [null] replaces [null]. *)
Definition setActiveConversation (v : option Conversation) (w : World)
    : World :=
  let changed :=
    match v, activeConversation (st w) with
    | None, None => false
    | _, _ => true
    end in
  {| st := {| messages := messages (st w);
              conversations := conversations (st w);
              activeConversation := v;
              isLoading := isLoading (st w);
              lastUserMessage := lastUserMessage (st w);
              abortController := abortController (st w);
              processingConversationId := processingConversationId (st w) |};
     localStorage := localStorage w; aborted := aborted w;
     ticks := ticks w;
     activeRef := if changed then S (activeRef w) else activeRef w;
     rendered := rendered w |}.

(** [activeConversation?.id === id] *)
Definition active_is (env : RState) (cid : string) : bool :=
  bool_decide (conv_id <$> activeConversation env = Some cid).
Arguments active_is : simpl never.

(** ** Asynchronous handlers: outcomes and frames *)

(** Modelled from the spec: [services/chatService.js] ([sendChatMessage])
    is not among the sources.  The spec's reply operation returns
    [{ message: string }] or fails, with a distinguished cancellation
    failure kind; the handlers tell the kinds apart by
    [error.name !== "AbortError"].  Signalling the handle is advisory: the
    operation may still resolve. *)
Inductive Outcome :=
| Resolved (message : string)
| AbortError
| Failed.

(** How the first half of an [async] handler ends: suspended at the
    [await], run to its end without awaiting, or rejected by an exception
    no [try] of the handler covers. *)
Inductive Started (F : Type) :=
| Awaiting (w : World) (frame : F)
| Returned (w : World)
| Rejected (w : World).
Arguments Awaiting {F} w frame.
Arguments Returned {F} w.
Arguments Rejected {F} w.

Definition world_of {F : Type} (r : Started F) : World :=
  match r with
  | Awaiting w _ => w
  | Returned w => w
  | Rejected w => w
  end.

(** The frame of [sendMessage] at its [await]: the closure (the state
    cells and the [currentUser] of the render that made the handler) and
    the locals. *)
Record SendFrame := mkSendFrame {
  sf_env : RState;
  sf_currentUser : option string;
  sf_currentConversationId : string;
  sf_controller : nat;
  sf_content : string;
  sf_currentMessages : list Message;
  sf_preferredLanguage : string;
  sf_updatedMessages : list Message
}.

(** The frame of [regenerateResponse] at its [await], likewise. *)
Record RegenFrame := mkRegenFrame {
  rf_env : RState;
  rf_currentUser : option string;
  rf_currentConversationId : string;
  rf_controller : nat;
  rf_userMessageContent : string;
  rf_history : list Message;
  rf_preferredLanguage : string;
  rf_updatedMessages : list Message
}.

Definition user_message (i text t : string) : Message :=
  {| msg_id := i; content := text; sender := user; msg_timestamp := t;
     language := None; feedback := None; isError := false |}.

Definition ai_message (i text t lang : string) : Message :=
  {| msg_id := i; content := text; sender := ai; msg_timestamp := t;
     language := Some lang; feedback := None; isError := false |}.

Definition error_message (i text t : string) : Message :=
  {| msg_id := i; content := text; sender := ai; msg_timestamp := t;
     language := None; feedback := None; isError := true |}.

Definition send_apology : string :=
  "Sorry, I couldn't process your request. Please try again.".
Definition regenerate_apology : string :=
  "Sorry, I couldn't regenerate a response. Please try again.".

(** The backward scan of [regenerateResponse]: the indices [n-1], ..., [0]
    in turn, up to the first message sent by the user; [None] stands for
    [userMessageIndex < 0]. *)
Fixpoint user_before (msgs : list Message) (n : nat)
    : option (nat * Message) :=
  match n with
  | 0 => None
  | S k =>
      match msgs !! k with
      | Some m =>
          if decide (sender m = user) then Some (k, m)
          else user_before msgs k
      | None => None
      end
  end.

(** [s && ...] on a string or [null] *)
Definition truthy (o : option string) : bool :=
  match o with
  | Some s => bool_decide (s ≠ "")
  | None => false
  end.

Section Controller.

(** The signed-in user's [currentUser.id], or [None] for [currentUser ===
    null]; held fixed. *)
Variable currentUser : option string.

(** The values returned by the successive calls of [uuidv4()] and of
    [new Date().toISOString()]. *)
Variable uuidv4 : nat → string.
Variable clock : nat → string.

Definition fresh_uuid (w : World) : string * World :=
  (uuidv4 (ticks w), tick w).

Definition now (w : World) : string * World :=
  (clock (ticks w), tick w).

(** [new AbortController()] *)
Definition newAbortController (w : World) : nat * World :=
  (ticks w, tick w).

(** [if (currentUser) saveToLocalStorage(key(currentUser.id), v)] *)
Definition save_for_user (key : string → string) (v : Stored) (w : World)
    : World :=
  match currentUser with
  | Some u => with_storage (saveToLocalStorage (key u) v) w
  | None => w
  end.

(** ** Message Log: loading and the message effect *)

Definition is_user (m : Message) : bool := bool_decide (sender m = user).

(** [loadConversationMessages].  With [currentUser === null] the key
    template throws inside the [try]; the [catch] only logs. *)
Definition loadConversationMessages (conversationId : string) (w : World)
    : World :=
  match currentUser with
  | None => w
  | Some u =>
      let storedMessages :=
        stored_messages
          (getFromLocalStorage (messages_key u conversationId)
             (localStorage w)) in
      let w := setMessages storedMessages w in
      let userMessages := List.filter is_user storedMessages in
      match last userMessages with
      | Some m => setLastUserMessage (content m) w
      | None => setLastUserMessage "" w
      end
  end.

(** The body of the effect with dependencies [[activeConversation,
    processingConversationId]]. *)
Definition message_effect (w : World) : World :=
  match activeConversation (st w) with
  | Some c =>
      let w' := loadConversationMessages (conv_id c) w in
      setIsLoading
        (bool_decide (processingConversationId (st w) = Some (conv_id c))) w'
  | None => setMessages [] w
  end.

Definition deps (w : World) : nat * option string :=
  (activeRef w, processingConversationId (st w)).

(** A render commits the batched updates and runs the message effect when
    one of its dependencies changed since the render before. *)
Definition render (w : World) : World :=
  if decide (deps w = rendered w) then w
  else
    let w' := message_effect w in
    {| st := st w'; localStorage := localStorage w'; aborted := aborted w';
       ticks := ticks w'; activeRef := activeRef w'; rendered := deps w |}.

(** ** Conversation Store *)

Definition setActiveConversationWithStorage (conversation : Conversation)
    (w : World) : World :=
  let env := st w in
  if active_is env (conv_id conversation) then w
  else
    let w := setActiveConversation (Some conversation) w in
    match currentUser with
    | Some u =>
        with_storage
          (λ ls, <[active_key u := RawString (conv_id conversation)]> ls) w
    | None => w
    end.

(** [createNewConversation(baseConversations = null)]; an array, also the
    empty one, is truthy in [baseConversations || conversations]. *)
Definition createNewConversation (env : RState)
    (baseConversations : option (list Conversation)) (w : World) : World :=
  let '(i, w) := fresh_uuid w in
  let '(t, w) := now w in
  let newConversation :=
    {| conv_id := i; title := "New Conversation";
       conv_timestamp := t; userId := currentUser |} in
  let updatedConversations :=
    newConversation :: default (conversations env) baseConversations in
  let w := setConversations updatedConversations w in
  let w := setActiveConversation (Some newConversation) w in
  let w := setMessages [] w in
  let w := setLastUserMessage "" w in
  save_for_user conversations_key (JsonConversations updatedConversations) w.

(** The title expression of [updateConversationTitle]. *)
Definition derive_title (firstMessage : string) : string :=
  if (30 <? String.length firstMessage)%nat
  then String.substring 0 30 firstMessage +:+ "..."
  else firstMessage.

Definition retitle (conversationId t : string) (conv : Conversation)
    : Conversation :=
  if decide (conv_id conv = conversationId) then with_title t conv else conv.

(** [setActiveConversation((prev) => ({ ...prev, title }))] updates the
    cell as it is when the update is applied; [sendMessage], the only
    caller, runs it on the cell its own closure saw, which is not
    [null]. *)
Definition updateConversationTitle (env : RState)
    (conversationId firstMessage : string) (w : World) : World :=
  let t := derive_title firstMessage in
  let updatedConversations :=
    map (retitle conversationId t) (conversations env) in
  let w := setConversations updatedConversations w in
  let w :=
    if active_is env conversationId
    then setActiveConversation (with_title t <$> activeConversation (st w)) w
    else w in
  save_for_user conversations_key (JsonConversations updatedConversations) w.

(** ** Response Controller *)

(** [conversations.map(conv => conv.id === id ? { ...conv, timestamp: new
    Date().toISOString() } : conv)]: the clock is read at each match. *)
Fixpoint touch (cid : string) (convs : list Conversation) (w : World)
    : list Conversation * World :=
  match convs with
  | [] => ([], w)
  | conv :: rest =>
      if decide (conv_id conv = cid) then
        let '(t, w) := now w in
        let '(rest', w) := touch cid rest w in
        (with_timestamp t conv :: rest', w)
      else
        let '(rest', w) := touch cid rest w in
        (conv :: rest', w)
  end.

(** The [catch] block, the same in [sendMessage] and
    [regenerateResponse] but for the apology, for an error that is not an
    [AbortError]. *)
Definition catch_block (env : RState) (currentConversationId : string)
    (apology : string) (w : World) : World :=
  let '(i, w) := fresh_uuid w in
  let '(t, w) := now w in
  let errorMessage := error_message i apology t in
  match currentUser with
  | Some u =>
      let storageKey := messages_key u currentConversationId in
      let storedMessages :=
        stored_messages (getFromLocalStorage storageKey (localStorage w)) in
      let updatedMessages := storedMessages ++ [errorMessage] in
      let w :=
        with_storage
          (saveToLocalStorage storageKey (JsonMessages updatedMessages)) w in
      if active_is env currentConversationId
      then setMessages updatedMessages w
      else w
  | None => w
  end.

(** The [finally] block, the same in both handlers. *)
Definition finally_block (env : RState) (currentConversationId : string)
    (w : World) : World :=
  let w := setProcessingConversationId None w in
  let w := setAbortController None w in
  if active_is env currentConversationId then setIsLoading false w else w.

(** [sendMessage(content)] up to [await sendChatMessage(...)]. *)
Definition sendMessage_start (text : string) (w : World)
    : Started SendFrame :=
  let env := st w in
  let w :=
    match activeConversation env with
    | None => createNewConversation env None w
    | Some _ => w
    end in
  match activeConversation env with
  | None => Rejected w
  | Some a =>
      let currentConversationId := conv_id a in
      let w := setProcessingConversationId (Some currentConversationId) w in
      let '(controller, w) := newAbortController w in
      let w := setAbortController (Some controller) w in
      let w := setIsLoading true w in
      let w := setLastUserMessage text w in
      let preferredLanguage := preferredLanguage_of (localStorage w) in
      let '(i, w) := fresh_uuid w in
      let '(t, w) := now w in
      let userMessage := user_message i text t in
      let currentMessages := messages env in
      let updatedMessages := currentMessages ++ [userMessage] in
      let w :=
        if decide (length currentMessages = 0)
        then updateConversationTitle env currentConversationId text w
        else w in
      let w :=
        save_for_user (λ u, messages_key u currentConversationId)
          (JsonMessages updatedMessages) w in
      let w :=
        if active_is env currentConversationId
        then setMessages updatedMessages w
        else w in
      Awaiting w
        {| sf_env := env;
           sf_currentUser := currentUser;
           sf_currentConversationId := currentConversationId;
           sf_controller := controller;
           sf_content := text;
           sf_currentMessages := currentMessages;
           sf_preferredLanguage := preferredLanguage;
           sf_updatedMessages := updatedMessages |}
  end.

Definition stopResponse (w : World) : World :=
  let env := st w in
  match abortController env with
  | Some k =>
      let w := abort k w in
      let w := setIsLoading false w in
      let w := setAbortController None w in
      setProcessingConversationId None w
  | None => w
  end.

(** [regenerateResponse(messageId)] up to [await sendChatMessage(...)].
    The [throw] for a missing user message is inside the [try]: it runs
    the [catch] and [finally] blocks and the handler ends. *)
Definition regenerateResponse_start (messageId : string) (w : World)
    : Started RegenFrame :=
  let env := st w in
  match list_find (λ msg, msg_id msg = messageId) (messages env) with
  | None => Returned w
  | Some (messageIndex, target) =>
      if decide (sender target ≠ ai) then Returned w
      else
        match activeConversation env with
        | None => Rejected w
        | Some a =>
            let currentConversationId := conv_id a in
            let w :=
              setProcessingConversationId (Some currentConversationId) w in
            let '(controller, w) := newAbortController w in
            let w := setAbortController (Some controller) w in
            let w := setIsLoading true w in
            match user_before (messages env) messageIndex with
            | None =>
                Returned
                  (finally_block env currentConversationId
                     (catch_block env currentConversationId
                        regenerate_apology w))
            | Some (userMessageIndex, userMessage) =>
                let userMessageContent := content userMessage in
                let updatedMessages :=
                  if (messageIndex <? length (messages env) - 1)%nat
                  then take messageIndex (messages env)
                  else filter (λ msg, msg_id msg ≠ messageId) (messages env)
                in
                let w :=
                  save_for_user (λ u, messages_key u currentConversationId)
                    (JsonMessages updatedMessages) w in
                let w :=
                  if active_is env currentConversationId
                  then setMessages updatedMessages w
                  else w in
                let preferredLanguage :=
                  preferredLanguage_of (localStorage w) in
                Awaiting w
                  {| rf_env := env;
                     rf_currentUser := currentUser;
                     rf_currentConversationId := currentConversationId;
                     rf_controller := controller;
                     rf_userMessageContent := userMessageContent;
                     rf_history := take userMessageIndex updatedMessages;
                     rf_preferredLanguage := preferredLanguage;
                     rf_updatedMessages := updatedMessages |}
            end
        end
  end.

(** ** Annotators *)

Definition rate (messageId : string) (isPositive : bool) (msg : Message)
    : Message :=
  if decide (msg_id msg = messageId)
  then with_feedback (if isPositive then positive else negative) msg
  else msg.

Definition provideMessageFeedback (messageId : string) (isPositive : bool)
    (w : World) : World :=
  let env := st w in
  match list_find (λ msg, msg_id msg = messageId) (messages env) with
  | None => w
  | Some (_, messageToRate) =>
      if decide (sender messageToRate ≠ ai) then w
      else
        let updatedMessages := map (rate messageId isPositive) (messages env) in
        let w := setMessages updatedMessages w in
        match currentUser, activeConversation env with
        | Some u, Some a =>
            with_storage
              (saveToLocalStorage (messages_key u (conv_id a))
                 (JsonMessages updatedMessages)) w
        | _, _ => w
        end
  end.

(** ** Deleting conversations *)

Definition deleteConversation (conversationId : string) (w : World)
    : World :=
  let env := st w in
  let w :=
    match abortController env with
    | Some k =>
        if bool_decide (processingConversationId env = Some conversationId)
        then setProcessingConversationId None
               (setAbortController None (abort k w))
        else w
    | None => w
    end in
  let w :=
    setConversations
      (filter (λ conv, conv_id conv ≠ conversationId)
         (conversations (st w))) w in
  let w :=
    if active_is env conversationId then
      let nextConversation :=
        snd <$> list_find (λ conv, conv_id conv ≠ conversationId)
                  (conversations env) in
      setActiveConversation nextConversation w
    else w in
  match currentUser with
  | Some u =>
      let w :=
        with_storage (delete (messages_key u conversationId)) w in
      with_storage
        (saveToLocalStorage (conversations_key u)
           (JsonConversations
              (filter (λ conv, conv_id conv ≠ conversationId)
                 (conversations env)))) w
  | None => w
  end.

(** The keys collected by the loop over [localStorage.key(i)]. *)
Definition keysToRemove (u : string) (ls : gmap string Stored)
    : list string :=
  filter (λ key, String.prefix (user_prefix u) key = true)
    ((map_to_list ls).*1).

Definition deleteAllConversations (w : World) : World :=
  let env := st w in
  let w :=
    match abortController env with
    | Some k =>
        if truthy (processingConversationId env)
        then setProcessingConversationId None
               (setAbortController None (abort k w))
        else w
    | None => w
    end in
  let w := setConversations [] w in
  let w := setActiveConversation None w in
  let w := setMessages [] w in
  match currentUser with
  | Some u =>
      let keys := keysToRemove u (localStorage w) in
      let w :=
        with_storage (λ ls, foldl (λ ls key, delete key ls) ls keys) w in
      createNewConversation env (Some []) w
  | None => w
  end.

End Controller.

(** ** Replies settling *)

Section Replies.

Variable uuidv4 : nat → string.
Variable clock : nat → string.

(** [sendMessage] from the settled [await] to the end of [finally].  The
    [currentUser] it reads is the closure's. *)
Definition sendMessage_resume (f : SendFrame) (o : Outcome) (w : World)
    : World :=
  let env := sf_env f in
  let currentConversationId := sf_currentConversationId f in
  let w :=
    match o with
    | Resolved message =>
        let '(i, w) := fresh_uuid uuidv4 w in
        let '(t, w) := now clock w in
        let aiMessage := ai_message i message t (sf_preferredLanguage f) in
        let finalMessages := sf_updatedMessages f ++ [aiMessage] in
        let '(updatedConversations, w) :=
          touch clock currentConversationId (conversations env) w in
        let w := setConversations updatedConversations w in
        let w :=
          save_for_user (sf_currentUser f) conversations_key
            (JsonConversations updatedConversations) w in
        let w :=
          save_for_user (sf_currentUser f)
            (λ u, messages_key u currentConversationId)
            (JsonMessages finalMessages) w in
        if active_is env currentConversationId
        then setMessages finalMessages w
        else w
    | AbortError => w
    | Failed => catch_block (sf_currentUser f) uuidv4 clock env
        currentConversationId send_apology w
    end in
  finally_block env currentConversationId w.

(** [regenerateResponse] from the settled [await] to the end of
    [finally]. *)
Definition regenerateResponse_resume (f : RegenFrame) (o : Outcome)
    (w : World) : World :=
  let env := rf_env f in
  let currentConversationId := rf_currentConversationId f in
  let w :=
    match o with
    | Resolved message =>
        let '(i, w) := fresh_uuid uuidv4 w in
        let '(t, w) := now clock w in
        let newAiMessage :=
          ai_message i message t (rf_preferredLanguage f) in
        let finalMessages := rf_updatedMessages f ++ [newAiMessage] in
        let '(updatedConversations, w) :=
          touch clock currentConversationId (conversations env) w in
        let w := setConversations updatedConversations w in
        let w :=
          save_for_user (rf_currentUser f) conversations_key
            (JsonConversations updatedConversations) w in
        let w :=
          save_for_user (rf_currentUser f)
            (λ u, messages_key u currentConversationId)
            (JsonMessages finalMessages) w in
        if active_is env currentConversationId
        then setLastUserMessage (rf_userMessageContent f)
               (setMessages finalMessages w)
        else w
    | AbortError => w
    | Failed => catch_block (rf_currentUser f) uuidv4 clock env
        currentConversationId regenerate_apology w
    end in
  finally_block env currentConversationId w.

End Replies.

(** ** Sequences of store operations *)

Inductive StoreOp :=
| CreateConversation (baseConversations : option (list Conversation))
| DeleteConversation (conversationId : string)
| DeleteAllConversations.

Section Runs.

Variable currentUser : option string.
Variable uuidv4 : nat → string.
Variable clock : nat → string.

(** One user action on the store: the handler of the current render, then
    the render that follows it. *)
Definition perform (op : StoreOp) (w : World) : World :=
  render currentUser
    match op with
    | CreateConversation base =>
        createNewConversation currentUser uuidv4 clock (st w) base w
    | DeleteConversation cid => deleteConversation currentUser cid w
    | DeleteAllConversations =>
        deleteAllConversations currentUser uuidv4 clock w
    end.

Definition run (ops : list StoreOp) (w : World) : World :=
  foldl (λ w op, perform op w) w ops.

End Runs.

(** The active-conversation pointer is [null] or a member of the
    in-memory conversation sequence. *)
Definition active_in_store (w : World) : Prop :=
  match activeConversation (st w) with
  | None => True
  | Some c => c ∈ conversations (st w)
  end.

(** The component as mounted: empty state, nothing stored. *)
Definition initial_world : World :=
  {| st := {| messages := []; conversations := [];
              activeConversation := None; isLoading := false;
              lastUserMessage := ""; abortController := None;
              processingConversationId := None |};
     localStorage := ∅; aborted := ∅; ticks := 0; activeRef := 0;
     rendered := (0, None) |}.

(** ** Sample data

    A signed-in user ["u"] with the conversations ["A"] and ["B"], ["A"]
    active, and deterministic sources of ids and instants. *)

Definition sample_uuid (n : nat) : string := "id" +:+ pretty n.
Definition sample_clock (n : nat) : string := "t" +:+ pretty n.

Definition sample_A : Conversation :=
  {| conv_id := "A"; title := "New Conversation"; conv_timestamp := "t";
     userId := Some "u" |}.
Definition sample_B : Conversation :=
  {| conv_id := "B"; title := "Other"; conv_timestamp := "t";
     userId := Some "u" |}.

Definition sample_question : Message := user_message "m1" "Hello" "t".
Definition sample_answer : Message := ai_message "m2" "Hi" "t" "en".

Definition sample_state (msgs : list Message) : RState :=
  {| messages := msgs; conversations := [sample_A; sample_B];
     activeConversation := Some sample_A; isLoading := false;
     lastUserMessage := ""; abortController := None;
     processingConversationId := None |}.

Definition sample_world (msgs : list Message) : World :=
  {| st := sample_state msgs;
     localStorage :=
       <["u_messages_A" := JsonMessages msgs]>
         (<["u_conversations" := JsonConversations [sample_A; sample_B]]>
            (<["preferredLanguage" := RawString "fr"]> ∅));
     aborted := ∅; ticks := 0; activeRef := 0; rendered := (0, None) |}.

(** The sample world with a first message sent and its reply awaited. *)
Definition sample_pending : World :=
  world_of
    (sendMessage_start (Some "u") sample_uuid sample_clock "Hello"
       (sample_world [])).

(** The sample world with no conversation left. *)
Definition sample_deserted : World :=
  run (Some "u") sample_uuid sample_clock
    [DeleteConversation "A"; DeleteConversation "B"] (sample_world []).

(** ** Loading the conversations and the whole interface *)

(** [localStorage.getItem(key)] at the active-conversation key: the raw
    string [setItem] wrote, or [null]. *)
Definition getItem (key : string) (ls : gmap string Stored)
    : option string :=
  match ls !! key with
  | Some (RawString s) => Some s
  | _ => None
  end.

Section Loading.

Variable currentUser : option string.
Variable uuidv4 : nat → string.
Variable clock : nat → string.

(** [loadUserConversations].  With [currentUser === null] the key template
    throws inside the [try]; the [catch] only logs.  [some] followed by
    [find] with the same test is one search; [createNewConversation()]
    prepends to the [conversations] of the closure. *)
Definition loadUserConversations (env : RState) (w : World) : World :=
  match currentUser with
  | None => w
  | Some u =>
      let storedConversations :=
        stored_conversations
          (getFromLocalStorage (conversations_key u) (localStorage w)) in
      let w := setConversations storedConversations w in
      let activeConvId := getItem (active_key u) (localStorage w) in
      let found :=
        if truthy activeConvId
        then snd <$> list_find (λ conv, Some (conv_id conv) = activeConvId)
                       storedConversations
        else None in
      match found with
      | Some activeConv => setActiveConversation (Some activeConv) w
      | None =>
          match storedConversations with
          | first :: _ => setActiveConversation (Some first) w
          | [] => createNewConversation currentUser uuidv4 clock env None w
          end
      end
  end.

(** The body of the effect with dependencies [[isAuthenticated,
    currentUser]]. *)
Definition auth_effect (isAuthenticated : bool) (w : World) : World :=
  if isAuthenticated && bool_decide (is_Some currentUser)
  then loadUserConversations (st w) w
  else setActiveConversation None (setConversations [] w).

End Loading.

(** What can happen to the component: the calls the provider exposes, the
    load of the conversations, and the settling of an awaited reply. *)
Inductive Action :=
| DoLoad
| DoCreate (baseConversations : option (list Conversation))
| DoSwitch (conversation : Conversation)
| DoDelete (conversationId : string)
| DoDeleteAll
| DoFeedback (messageId : string) (isPositive : bool)
| DoStop
| DoSend (text : string)
| DoRegenerate (messageId : string)
| SendSettles (f : SendFrame) (o : Outcome)
| RegenerateSettles (f : RegenFrame) (o : Outcome).

(** The calls a user makes, as opposed to replies settling. *)
Definition user_action (a : Action) : bool :=
  match a with
  | SendSettles _ _ | RegenerateSettles _ _ => false
  | _ => true
  end.

Section Interface.

Variable currentUser : option string.
Variable uuidv4 : nat → string.
Variable clock : nat → string.

Definition handle (a : Action) (w : World) : World :=
  match a with
  | DoLoad => loadUserConversations currentUser uuidv4 clock (st w) w
  | DoCreate base =>
      createNewConversation currentUser uuidv4 clock (st w) base w
  | DoSwitch c => setActiveConversationWithStorage currentUser c w
  | DoDelete cid => deleteConversation currentUser cid w
  | DoDeleteAll => deleteAllConversations currentUser uuidv4 clock w
  | DoFeedback i b => provideMessageFeedback currentUser i b w
  | DoStop => stopResponse w
  | DoSend text =>
      world_of (sendMessage_start currentUser uuidv4 clock text w)
  | DoRegenerate i =>
      world_of (regenerateResponse_start currentUser uuidv4 clock i w)
  | SendSettles f o => sendMessage_resume uuidv4 clock f o w
  | RegenerateSettles f o => regenerateResponse_resume uuidv4 clock f o w
  end.

(** One action and the render that follows it. *)
Definition act (a : Action) (w : World) : World :=
  render currentUser (handle a w).

Definition acts (l : list Action) (w : World) : World :=
  foldl (λ w a, act a w) w l.

End Interface.

(** The visible log is the persisted log of the active conversation, and
    empty when none is active. *)
Definition visible_mirrors_storage (u : string) (w : World) : Prop :=
  match activeConversation (st w) with
  | Some c =>
      messages (st w)
      = stored_messages (localStorage w !! messages_key u (conv_id c))
  | None => messages (st w) = []
  end.

(** The persisted conversation index is the in-memory sequence. *)
Definition index_mirrors_store (u : string) (w : World) : Prop :=
  localStorage w !! conversations_key u
  = Some (JsonConversations (conversations (st w))).

(** No render is owed: the message effect ran for the current
    dependencies. *)
Definition settled (w : World) : Prop := rendered w = deps w.

(** A component just mounted over some stored data. *)
Definition mounted (ls : gmap string Stored) : World :=
  {| st := st initial_world; localStorage := ls; aborted := ∅; ticks := 0;
     activeRef := 0; rendered := (0, None) |}.

(** The frame the first send on the empty sample world leaves. *)
Definition sample_frame : SendFrame :=
  match sendMessage_start (Some "u") sample_uuid sample_clock "Hello"
          (sample_world []) with
  | Awaiting _ f => f
  | _ => {| sf_env := st initial_world; sf_currentUser := None;
            sf_currentConversationId := "";
            sf_controller := 0; sf_content := ""; sf_currentMessages := [];
            sf_preferredLanguage := ""; sf_updatedMessages := [] |}
  end.

(** The sample world after that send and a switch to ["B"]. *)
Definition sample_switched : World :=
  acts (Some "u") sample_uuid sample_clock
    [DoSend "Hello"; DoSwitch sample_B] (sample_world []).

(** The sample storage with the marker of the active conversation on
    ["B"]. *)
Definition sample_marked : gmap string Stored :=
  <["u_activeConversation" := RawString "B"]>
    (localStorage (sample_world [sample_question; sample_answer])).

(** The sample storage as [createNewConversation] would find it with the
    marker on ["B"], and the closure of a component showing the sample
    conversations. *)
Definition sample_marked_world : World :=
  {| st := sample_state []; localStorage := sample_marked; aborted := ∅;
     ticks := 0; activeRef := 0; rendered := (0, None) |}.

(** A log with two assistant messages in a row, and the frame a
    regeneration of the second one leaves. *)
Definition sample_more : Message := ai_message "m3" "More" "t" "en".

Definition sample_long_world : World :=
  sample_world [sample_question; sample_answer; sample_more].

Definition sample_regen_frame : RegenFrame :=
  match regenerateResponse_start (Some "u") sample_uuid sample_clock "m3"
          sample_long_world with
  | Awaiting _ f => f
  | _ => {| rf_env := st initial_world; rf_currentUser := None;
            rf_currentConversationId := "";
            rf_controller := 0; rf_userMessageContent := "";
            rf_history := []; rf_preferredLanguage := "";
            rf_updatedMessages := [] |}
  end.

(** The reply settling in [a], if [a] is one, belongs to a request sent
    by a render whose [currentUser] was [cu]. *)
Definition sent_by (cu : option string) (a : Action) : Prop :=
  match a with
  | SendSettles f _ => sf_currentUser f = cu
  | RegenerateSettles f _ => rf_currentUser f = cu
  | _ => True
  end.

(** A second send, on ["B"], while the first is pending: its frame, and
    the world once its reply has resolved. *)
Definition sample_frame_B : SendFrame :=
  match sendMessage_start (Some "u") sample_uuid sample_clock "Hi"
          sample_switched with
  | Awaiting _ f => f
  | _ => sample_frame
  end.

Definition sample_crossed : World :=
  acts (Some "u") sample_uuid sample_clock
    [DoSend "Hi"; SendSettles sample_frame_B (Resolved "Yo")]
    sample_switched.

(** The same second send, followed by a delete-all instead. *)
Definition sample_cleared : World :=
  acts (Some "u") sample_uuid sample_clock [DoSend "Hi"; DoDeleteAll]
    sample_switched.

(** * Properties *)

(** ** Keys *)

Lemma messages_key_inj (u a b : string) :
  messages_key u a = messages_key u b → a = b.
Proof.
  unfold messages_key. intros H.
  apply (inj (String.app u)) in H.
  by apply (inj (String.app "_messages_")) in H.
Qed.

Lemma messages_key_not_conversations (u a : string) :
  messages_key u a ≠ conversations_key u.
Proof.
  unfold messages_key, conversations_key. intros H.
  apply (inj (String.app u)) in H. discriminate H.
Qed.

Lemma messages_key_not_active (u a : string) :
  messages_key u a ≠ active_key u.
Proof.
  unfold messages_key, active_key. intros H.
  apply (inj (String.app u)) in H. discriminate H.
Qed.

Lemma append_cons (c : Ascii.ascii) (s1 s2 : string) :
  String c s1 +:+ s2 = String c (s1 +:+ s2).
Proof. reflexivity. Qed.

Lemma append_assoc (s1 s2 s3 : string) :
  (s1 +:+ s2) +:+ s3 = s1 +:+ (s2 +:+ s3).
Proof.
  induction s1 as [|c s1 IH]; [done|].
  rewrite !append_cons. by f_equal.
Qed.

Lemma prefix_app (p s : string) : String.prefix p (p +:+ s) = true.
Proof.
  induction p as [|c p IH].
  - by destruct s.
  - rewrite append_cons. cbn [String.prefix].
    destruct (Ascii.ascii_dec c c); [exact IH | congruence].
Qed.

Lemma prefix_conversations_key (u : string) :
  String.prefix (user_prefix u) (conversations_key u) = true.
Proof.
  unfold user_prefix, conversations_key.
  change "_conversations" with ("_" +:+ "conversations").
  rewrite <- append_assoc. apply prefix_app.
Qed.

Lemma prefix_messages_key (u cid : string) :
  String.prefix (user_prefix u) (messages_key u cid) = true.
Proof.
  unfold user_prefix, messages_key.
  change ("_messages_" +:+ cid) with ("_" +:+ ("messages_" +:+ cid)).
  rewrite <- append_assoc. apply prefix_app.
Qed.

(** ** Removing a list of keys *)

Lemma lookup_foldl_delete (keys : list string) (ls : gmap string Stored)
    (k : string) :
  foldl (λ ls key, delete key ls) ls keys !! k
  = if decide (k ∈ keys) then None else ls !! k.
Proof.
  revert ls. induction keys as [|key keys IH]; intros ls; simpl.
  - done.
  - rewrite IH.
    destruct (decide (k ∈ keys)) as [Hin|Hin].
    + rewrite decide_True; [done | by right].
    + destruct (decide (key = k)) as [->|Hne].
      * rewrite lookup_delete_eq, decide_True; [done | by left].
      * rewrite lookup_delete_ne, decide_False; [done | | done].
        intros [?|?]%elem_of_cons; congruence.
Qed.

Lemma elem_of_keysToRemove (u k : string) (ls : gmap string Stored) :
  k ∈ keysToRemove u ls
  ↔ String.prefix (user_prefix u) k = true ∧ is_Some (ls !! k).
Proof.
  unfold keysToRemove. rewrite list_elem_of_filter, list_elem_of_fmap.
  split.
  - intros [Hp [[k' v] [-> Hin]]]. split; [done|].
    apply elem_of_map_to_list in Hin. by exists v.
  - intros [Hp [v Hv]]. split; [done|].
    exists (k, v). split; [done|]. by apply elem_of_map_to_list.
Qed.

(** What [localStorage] holds once the keys of user [u] are removed. *)
Lemma lookup_after_removal (u k : string) (ls : gmap string Stored) :
  foldl (λ ls key, delete key ls) ls (keysToRemove u ls) !! k
  = if String.prefix (user_prefix u) k then None else ls !! k.
Proof.
  rewrite lookup_foldl_delete.
  destruct (decide (k ∈ keysToRemove u ls)) as [Hin|Hin].
  - apply elem_of_keysToRemove in Hin as [-> _]. done.
  - destruct (String.prefix (user_prefix u) k) eqn:Hp; [|done].
    destruct (ls !! k) eqn:Hk; [|done].
    exfalso. apply Hin, elem_of_keysToRemove. split; [done|]. by eexists.
Qed.

(** ** Title derivation *)

(** C8. The title derived from a first message is the message itself when
    it has at most 30 characters, and its first 30 characters followed by
    the ellipsis ["..."] when it has more; [updateConversationTitle] gives
    that title to every conversation of the store with the given id. *)
Theorem title_derivation (currentUser : option string) (env : RState)
    (cid text : string) (w : World) :
  ((String.length text ≤ 30)%nat → derive_title text = text)
  ∧ ((30 < String.length text)%nat →
     derive_title text = String.substring 0 30 text +:+ "...")
  ∧ (∀ conv,
       conv ∈ conversations (st (updateConversationTitle currentUser env
                                   cid text w)) →
       conv_id conv = cid → title conv = derive_title text).
Proof.
  unfold derive_title. split; [|split].
  - intros Hle. by rewrite (proj2 (Nat.ltb_ge _ _) Hle).
  - intros Hlt. by rewrite (proj2 (Nat.ltb_lt _ _) Hlt).
  - intros conv Hin Hid.
    assert (Hst : conversations
                    (st (updateConversationTitle currentUser env cid text w))
                  = map (retitle cid (derive_title text)) (conversations env)).
    { unfold updateConversationTitle, save_for_user.
      destruct currentUser, (active_is env cid); reflexivity. }
    rewrite Hst in Hin. apply list_elem_of_fmap in Hin as [c0 [-> _]].
    unfold retitle in *. destruct (decide (conv_id c0 = cid)); [done|].
    contradiction.
Qed.

Lemma title_derivation_witness :
  derive_title "Hello" = "Hello"
  ∧ derive_title "Please summarise the attached report"
    = "Please summarise the attached " +:+ "...".
Proof.
  destruct (title_derivation (Some "u") (sample_state []) "A" "Hello"
              (sample_world [])) as [Hshort _].
  destruct (title_derivation (Some "u") (sample_state []) "A"
              "Please summarise the attached report"
              (sample_world [])) as [_ [Hlong _]].
  split; [apply Hshort | apply Hlong]; vm_compute; lia.
Defined.

(** ** Stop *)

(** C10. With no cancellation handle ([abortController] is [null])
    [stopResponse] changes nothing: state cells, storage, signalled
    controllers and effect bookkeeping are those of before. *)
Theorem stop_without_pending_request (w : World) :
  abortController (st w) = None → stopResponse w = w.
Proof. intros H. unfold stopResponse. by rewrite H. Qed.

Lemma stop_without_pending_request_witness :
  stopResponse (sample_world [sample_question; sample_answer])
  = sample_world [sample_question; sample_answer].
Proof. apply stop_without_pending_request. reflexivity. Defined.

(** ** Feedback *)

Lemma loadConversationMessages_messages (u cid : string) (w : World) :
  messages (st (loadConversationMessages (Some u) cid w))
  = stored_messages (localStorage w !! messages_key u cid).
Proof.
  unfold loadConversationMessages, getFromLocalStorage.
  by destruct (last _).
Qed.

(** C9. [provideMessageFeedback] changes nothing when the visible log has
    no assistant message with the given id.  When the message of that id
    (the one [find] returns) is an assistant message, its feedback tag is
    set to the given value, whatever it was, in the visible log, the
    other messages stay as they are, the whole log is written under the
    active conversation's key, and loading that conversation again, from
    any component that reads the same stored value, shows the log with the
    tag. *)
Theorem feedback_set_and_persisted (u messageId : string)
    (isPositive : bool) (w : World) :
  let w' := provideMessageFeedback (Some u) messageId isPositive w in
  let tag := if isPositive then positive else negative in
  ((∀ m, m ∈ messages (st w) → msg_id m = messageId → sender m ≠ ai) →
   w' = w)
  ∧ (∀ i m a,
       list_find (λ msg, msg_id msg = messageId) (messages (st w))
       = Some (i, m) →
       sender m = ai →
       activeConversation (st w) = Some a →
       messages (st w') !! i = Some (with_feedback tag m)
       ∧ feedback (with_feedback tag m) = Some tag
       ∧ length (messages (st w')) = length (messages (st w))
       ∧ (∀ j x, messages (st w) !! j = Some x → msg_id x ≠ messageId →
                 messages (st w') !! j = Some x)
       ∧ localStorage w' !! messages_key u (conv_id a)
         = Some (JsonMessages (messages (st w')))
       ∧ (∀ w'' : World,
            localStorage w'' !! messages_key u (conv_id a)
            = localStorage w' !! messages_key u (conv_id a) →
            messages (st (loadConversationMessages (Some u) (conv_id a) w''))
            = messages (st w'))).
Proof.
  intros w' tag. subst w'. unfold provideMessageFeedback. split.
  - intros Hno.
    destruct (list_find _ _) as [[i m]|] eqn:Hfind; [|done].
    apply list_find_Some in Hfind as (Hi & Hid & _).
    rewrite decide_True; [done|].
    apply Hno; [|done]. eapply list_elem_of_lookup_2, Hi.
  - intros i m a Hfind Hai Ha. rewrite Hfind.
    rewrite decide_False by (rewrite Hai; tauto).
    rewrite Ha.
    apply list_find_Some in Hfind as (Hi & Hid & _).
    assert (Hrate : rate messageId isPositive m = with_feedback tag m).
    { unfold rate. by rewrite decide_True. }
    split_and!.
    + cbn. by rewrite list_lookup_fmap, Hi; cbn; rewrite Hrate.
    + done.
    + cbn. by rewrite length_map.
    + intros j x Hj Hx. cbn. rewrite list_lookup_fmap, Hj. cbn.
      unfold rate. by rewrite decide_False.
    + cbn. unfold saveToLocalStorage. by rewrite lookup_insert_eq.
    + intros w'' Hsame. rewrite loadConversationMessages_messages, Hsame.
      cbn. unfold saveToLocalStorage. by rewrite lookup_insert_eq.
Qed.

Lemma feedback_set_and_persisted_witness :
  let w' := provideMessageFeedback (Some "u") "m2" true
              (sample_world [sample_question; sample_answer]) in
  messages (st w') !! 1 = Some (with_feedback positive sample_answer)
  ∧ messages
      (st (loadConversationMessages (Some "u") "A"
             (with_st (λ _, sample_state []) w')))
    = [sample_question; with_feedback positive sample_answer].
Proof.
  destruct (feedback_set_and_persisted "u" "m2" true
              (sample_world [sample_question; sample_answer]))
    as [_ Hset].
  destruct (Hset 1 sample_answer sample_A) as (H1 & _ & _ & _ & _ & H6);
    [reflexivity | reflexivity | reflexivity |].
  split; [exact H1|].
  rewrite H6; reflexivity.
Defined.

(** ** The active pointer and the store *)

Lemma loadConversationMessages_store (currentUser : option string)
    (cid : string) (w : World) :
  conversations (st (loadConversationMessages currentUser cid w))
  = conversations (st w)
  ∧ activeConversation (st (loadConversationMessages currentUser cid w))
    = activeConversation (st w).
Proof.
  unfold loadConversationMessages. destruct currentUser; [|done].
  by destruct (last _).
Qed.

Lemma render_store (currentUser : option string) (w : World) :
  conversations (st (render currentUser w)) = conversations (st w)
  ∧ activeConversation (st (render currentUser w))
    = activeConversation (st w).
Proof.
  unfold render. destruct (decide _); [done|]. cbn.
  unfold message_effect. destruct (activeConversation (st w)) eqn:Ha.
  - cbn. destruct (loadConversationMessages_store currentUser (conv_id c) w)
      as [-> ->]. by rewrite Ha.
  - cbn. by rewrite Ha.
Qed.

Lemma createNewConversation_store (currentUser : option string)
    (uuidv4 clock : nat → string) (env : RState)
    (base : option (list Conversation)) (w : World) :
  ∃ c, activeConversation
         (st (createNewConversation currentUser uuidv4 clock env base w))
       = Some c
     ∧ conversations
         (st (createNewConversation currentUser uuidv4 clock env base w))
       = c :: default (conversations env) base
     ∧ title c = "New Conversation".
Proof.
  eexists. unfold createNewConversation, save_for_user.
  destruct currentUser; cbn; done.
Qed.

Lemma deleteConversation_store (currentUser : option string)
    (cid : string) (w : World) :
  let w' := deleteConversation currentUser cid w in
  conversations (st w')
  = filter (λ conv, conv_id conv ≠ cid) (conversations (st w))
  ∧ activeConversation (st w')
    = if active_is (st w) cid
      then snd <$> list_find (λ conv, conv_id conv ≠ cid)
                     (conversations (st w))
      else activeConversation (st w).
Proof.
  unfold deleteConversation.
  destruct currentUser, (abortController (st w)),
    (bool_decide (processingConversationId (st w) = Some cid)),
    (active_is (st w) cid); cbn; done.
Qed.

Lemma deleteAllConversations_store (currentUser : option string)
    (uuidv4 clock : nat → string) (w : World) :
  let w' := deleteAllConversations currentUser uuidv4 clock w in
  match currentUser with
  | Some _ =>
      ∃ c, activeConversation (st w') = Some c
         ∧ conversations (st w') = [c]
         ∧ title c = "New Conversation"
  | None => activeConversation (st w') = None ∧ conversations (st w') = []
  end.
Proof.
  unfold deleteAllConversations. destruct currentUser.
  - cbv zeta. set (w1 := with_storage _ _).
    destruct (createNewConversation_store (Some s) uuidv4 clock (st w)
                (Some []) w1) as (c & Ha & Hc & Ht).
    exists c. done.
  - by destruct (abortController (st w)),
      (truthy (processingConversationId (st w))).
Qed.

Lemma perform_preserves (currentUser : option string)
    (uuidv4 clock : nat → string) (op : StoreOp) (w : World) :
  active_in_store w →
  active_in_store (perform currentUser uuidv4 clock op w).
Proof.
  intros Hinv. unfold perform, active_in_store in *.
  destruct (render_store currentUser
              match op with
              | CreateConversation base =>
                  createNewConversation currentUser uuidv4 clock (st w) base w
              | DeleteConversation cid => deleteConversation currentUser cid w
              | DeleteAllConversations =>
                  deleteAllConversations currentUser uuidv4 clock w
              end) as [-> ->].
  destruct op as [base|cid|].
  - destruct (createNewConversation_store currentUser uuidv4 clock (st w)
                base w) as (c & -> & -> & _).
    by left.
  - destruct (deleteConversation_store currentUser cid w) as [-> ->].
    unfold active_is. case_bool_decide as Hact.
    + destruct (list_find _ _) as [[i c]|] eqn:Hfind; [|done]. cbn.
      apply list_find_Some in Hfind as (Hi & Hne & _).
      apply list_elem_of_filter. split; [done|].
      eapply list_elem_of_lookup_2, Hi.
    + destruct (activeConversation (st w)) as [c|]; [|done].
      apply list_elem_of_filter. split; [|done].
      intros Heq. apply Hact. cbn. by rewrite Heq.
  - pose proof (deleteAllConversations_store currentUser uuidv4 clock w)
      as Hall.
    destruct currentUser.
    + destruct Hall as (c & -> & -> & _). by left.
    + destruct Hall as [-> _]. done.
Qed.

(** C5. Whatever create, delete and delete-all operations are performed,
    in whatever order, from a state in which the active pointer is [null]
    or in the conversation store, the pointer is [null] or in the store
    afterwards. *)
Theorem active_pointer_in_store (currentUser : option string)
    (uuidv4 clock : nat → string) (ops : list StoreOp) (w : World) :
  active_in_store w →
  active_in_store (run currentUser uuidv4 clock ops w).
Proof.
  revert w. induction ops as [|op ops IH]; intros w Hinv; [done|].
  cbn. apply IH. by apply perform_preserves.
Qed.

Lemma active_pointer_in_store_witness :
  active_in_store
    (run (Some "u") sample_uuid sample_clock
       [CreateConversation None; CreateConversation None;
        DeleteConversation "id0"; DeleteConversation "id2";
        DeleteAllConversations; CreateConversation None;
        DeleteConversation "id6"]
       initial_world).
Proof. apply active_pointer_in_store. exact I. Defined.

(** ** Delete all *)

Lemma deleteAllConversations_fields (u : string)
    (uuidv4 clock : nat → string) (w : World) :
  let w' := deleteAllConversations (Some u) uuidv4 clock w in
  let c := {| conv_id := uuidv4 (ticks w); title := "New Conversation";
              conv_timestamp := clock (S (ticks w)); userId := Some u |} in
  conversations (st w') = [c]
  ∧ activeConversation (st w') = Some c
  ∧ messages (st w') = []
  ∧ localStorage w'
    = <[conversations_key u := JsonConversations [c]]>
        (foldl (λ ls key, delete key ls) (localStorage w)
           (keysToRemove u (localStorage w))).
Proof.
  unfold deleteAllConversations.
  destruct (abortController (st w)) as [k|];
    [destruct (truthy (processingConversationId (st w)))|]; cbn; done.
Qed.

Lemma message_effect_messages (u : string) (w : World) :
  messages (st (message_effect (Some u) w))
  = match activeConversation (st w) with
    | Some c => stored_messages (localStorage w !! messages_key u (conv_id c))
    | None => []
    end.
Proof.
  unfold message_effect. destruct (activeConversation (st w)); [|done].
  unfold setIsLoading, with_st. cbn [st messages].
  apply loadConversationMessages_messages.
Qed.

Lemma render_messages (u : string) (w : World) :
  messages (st (render (Some u) w))
  = if decide (deps w = rendered w) then messages (st w)
    else messages (st (message_effect (Some u) w)).
Proof. unfold render. by destruct (decide _). Qed.

Lemma render_messages_empty (u : string) (w : World) (c : Conversation) :
  activeConversation (st w) = Some c →
  messages (st w) = [] →
  stored_messages (localStorage w !! messages_key u (conv_id c)) = [] →
  messages (st (render (Some u) w)) = [].
Proof.
  intros Ha Hm Hs. rewrite render_messages, message_effect_messages, Ha.
  by destruct (decide _).
Qed.

(** C7, amended.  For a signed-in user [deleteAllConversations] signals
    the cancellation handle held in [abortController], that of the request
    marked pending, leaves exactly
    one conversation in the store, new, titled ["New Conversation"] and
    active, with an empty message log, also after the render that
    follows; of the keys prefixed by the user's id and an underscore only
    the conversation index remains, holding that one conversation; the
    other keys are untouched. *)
Theorem delete_all_leaves_one_fresh_conversation (u : string)
    (uuidv4 clock : nat → string) (w : World) :
  let w' := deleteAllConversations (Some u) uuidv4 clock w in
  (∀ k p, abortController (st w) = Some k →
          processingConversationId (st w) = Some p → p ≠ "" →
          k ∈ aborted w' ∧ abortController (st w') = None
          ∧ processingConversationId (st w') = None)
  ∧ ∃ c, conversations (st w') = [c]
       ∧ activeConversation (st w') = Some c
       ∧ title c = "New Conversation"
       ∧ messages (st w') = []
       ∧ messages (st (render (Some u) w')) = []
       ∧ stored_messages (localStorage w' !! messages_key u (conv_id c)) = []
       ∧ localStorage w' !! conversations_key u
         = Some (JsonConversations [c])
       ∧ (∀ key, String.prefix (user_prefix u) key = true →
                 key ≠ conversations_key u →
                 localStorage w' !! key = None)
       ∧ (∀ key, String.prefix (user_prefix u) key = false →
                 localStorage w' !! key = localStorage w !! key).
Proof.
  intros w'. split.
  - intros k p Hk Hp Hne. subst w'. unfold deleteAllConversations.
    rewrite Hk, Hp. cbn. rewrite bool_decide_true by done. cbn.
    split; [set_solver | done].
  - destruct (deleteAllConversations_fields u uuidv4 clock w)
      as (Hc & Ha & Hm & Hls).
    fold w' in Hc, Ha, Hm, Hls.
    set (c := {| conv_id := uuidv4 (ticks w); title := "New Conversation";
                 conv_timestamp := clock (S (ticks w));
                 userId := Some u |}) in *.
    assert (Hgone : ∀ key, String.prefix (user_prefix u) key = true →
                           key ≠ conversations_key u →
                           localStorage w' !! key = None).
    { intros key Hp Hne. rewrite Hls, lookup_insert_ne by done.
      by rewrite lookup_after_removal, Hp. }
    assert (Hempty : stored_messages
                       (localStorage w' !! messages_key u (conv_id c)) = []).
    { rewrite Hgone; [done | apply prefix_messages_key |
                      apply messages_key_not_conversations]. }
    exists c. split_and!; try done.
    + by apply (render_messages_empty u w' c).
    + by rewrite Hls, lookup_insert_eq.
    + intros key Hp. rewrite Hls, lookup_insert_ne.
      * by rewrite lookup_after_removal, Hp.
      * intros <-. by rewrite prefix_conversations_key in Hp.
Qed.

Lemma delete_all_leaves_one_fresh_conversation_witness :
  let w' := deleteAllConversations (Some "u") sample_uuid sample_clock
              sample_pending in
  0 ∈ aborted w'
  ∧ localStorage w' !! "u_messages_A" = None
  ∧ localStorage w' !! "preferredLanguage" = Some (RawString "fr").
Proof.
  destruct (delete_all_leaves_one_fresh_conversation "u" sample_uuid
              sample_clock sample_pending)
    as [Hab (c & _ & _ & _ & _ & _ & _ & _ & Hgone & Hkeep)].
  split_and!.
  - apply (Hab 0 "A"); [reflexivity | reflexivity | discriminate].
  - apply Hgone; [reflexivity | discriminate].
  - rewrite Hkeep; reflexivity.
Defined.

(** ** Send with no active conversation *)

(** C6. When [sendMessage] runs in a render whose [activeConversation] is
    [null], [createNewConversation] puts a new conversation in the store
    and makes it active, and the next statement reads [.id] of the
    closure's [activeConversation], still [null]: the handler rejects.
    No request is marked pending, no user message is shown and no message
    key is written. *)
Theorem send_without_active_conversation (u : string)
    (uuidv4 clock : nat → string) (text : string) (w : World) :
  activeConversation (st w) = None →
  ∃ w' c,
    sendMessage_start (Some u) uuidv4 clock text w = Rejected w'
    ∧ activeConversation (st w') = Some c
    ∧ conversations (st w') = c :: conversations (st w)
    ∧ messages (st w') = []
    ∧ processingConversationId (st w') = processingConversationId (st w)
    ∧ abortController (st w') = abortController (st w)
    ∧ ∀ cid, localStorage w' !! messages_key u cid
             = localStorage w !! messages_key u cid.
Proof.
  intros Ha. unfold sendMessage_start. rewrite Ha.
  eexists _, _. split; [reflexivity|]. cbn. split_and!; try done.
  intros cid. unfold saveToLocalStorage.
  rewrite lookup_insert_ne; [done|].
  intros Heq. symmetry in Heq. by apply messages_key_not_conversations in Heq.
Qed.

Lemma send_without_active_conversation_witness :
  ∃ w', sendMessage_start (Some "u") sample_uuid sample_clock "Hello"
          sample_deserted = Rejected w'
      ∧ messages (st w') = []
      ∧ localStorage w' !! messages_key "u" "id0" = None.
Proof.
  destruct (send_without_active_conversation "u" sample_uuid sample_clock
              "Hello" sample_deserted) as (w' & c & Hr & _ & _ & Hm & _ & _ & Hk);
    [reflexivity|].
  exists w'. split_and!; [exact Hr | exact Hm |].
  rewrite Hk. reflexivity.
Defined.

(** ** Regenerate: the backward scan *)

Lemma user_before_None (msgs : list Message) (n : nat) :
  (∀ j x, (j < n)%nat → msgs !! j = Some x → sender x ≠ user) →
  user_before msgs n = None.
Proof.
  induction n as [|k IH]; intros Hno; [done|]. cbn.
  destruct (msgs !! k) as [m|] eqn:Hk; [|done].
  rewrite decide_False by (apply (Hno k); [lia | done]).
  apply IH. intros j x Hj. apply Hno. lia.
Qed.

Lemma user_before_Some (msgs : list Message) (n : nat) :
  (n ≤ length msgs)%nat →
  (∃ j x, (j < n)%nat ∧ msgs !! j = Some x ∧ sender x = user) →
  ∃ k m, user_before msgs n = Some (k, m)
       ∧ (k < n)%nat ∧ msgs !! k = Some m ∧ sender m = user.
Proof.
  induction n as [|k IH]; intros Hlen (j & x & Hj & Hx & Hu); [lia|]. cbn.
  destruct (lookup_lt_is_Some_2 msgs k) as [m Hk]; [lia|]. rewrite Hk.
  destruct (decide (sender m = user)) as [Hm|Hm].
  - exists k, m. split_and!; [done | lia | done | done].
  - destruct IH as (k' & m' & -> & Hk' & Hm' & Hu'); [lia | |].
    + exists j, x. split_and!; [|done|done].
      destruct (decide (j = k)) as [->|]; [|lia]. congruence.
    + exists k', m'. split_and!; [done | lia | done | done].
Qed.

(** ** Regenerate with no user message before the target *)

(** C4, the claim as stated, at the log [[sample_answer]]: the call ends
    normally, and both the visible log and the persisted log have
    changed. *)
Lemma regenerate_orphan_counterexample :
  let w := sample_world [sample_answer] in
  ∃ w', regenerateResponse_start (Some "u") sample_uuid sample_clock "m2" w
        = Returned w'
      ∧ messages (st w') ≠ messages (st w)
      ∧ localStorage w' !! "u_messages_A" ≠ localStorage w !! "u_messages_A".
Proof.
  eexists. split; [vm_compute; reflexivity|]. split; vm_compute; discriminate.
Qed.

(** C4, amended.  When the assistant message named by [messageId] has no
    user message before it, [regenerateResponse] treats the failure like a
    failed reply and ends normally: for a signed-in user the apology,
    an assistant message flagged as an error, is appended to the persisted
    log of the active conversation and that log is shown; no message is
    removed, the conversation store and the active pointer are unchanged,
    and the pending marker, the cancellation handle and the loading
    indicator are cleared. *)
Theorem regenerate_without_user_message (u : string)
    (uuidv4 clock : nat → string) (messageId : string) (w : World)
    (i : nat) (m : Message) (a : Conversation) :
  list_find (λ msg, msg_id msg = messageId) (messages (st w)) = Some (i, m) →
  sender m = ai →
  (∀ j x, (j < i)%nat → messages (st w) !! j = Some x → sender x ≠ user) →
  activeConversation (st w) = Some a →
  ∃ w' e,
    regenerateResponse_start (Some u) uuidv4 clock messageId w = Returned w'
    ∧ sender e = ai ∧ isError e = true ∧ content e = regenerate_apology
    ∧ localStorage w' !! messages_key u (conv_id a)
      = Some (JsonMessages
                (stored_messages
                   (localStorage w !! messages_key u (conv_id a)) ++ [e]))
    ∧ messages (st w')
      = stored_messages (localStorage w !! messages_key u (conv_id a)) ++ [e]
    ∧ (∀ key, key ≠ messages_key u (conv_id a) →
              localStorage w' !! key = localStorage w !! key)
    ∧ conversations (st w') = conversations (st w)
    ∧ activeConversation (st w') = activeConversation (st w)
    ∧ processingConversationId (st w') = None
    ∧ abortController (st w') = None
    ∧ isLoading (st w') = false.
Proof.
  intros Hfind Hai Hno Ha. unfold regenerateResponse_start.
  rewrite Hfind, decide_False by (rewrite Hai; tauto).
  rewrite Ha. cbn. rewrite (user_before_None _ _ Hno).
  unfold finally_block, catch_block, active_is. rewrite Ha. cbn.
  rewrite bool_decide_true by done.
  eexists _, (error_message _ regenerate_apology _).
  split; [reflexivity|]. cbn. unfold saveToLocalStorage, getFromLocalStorage.
  split_and!; try done.
  - by rewrite lookup_insert_eq.
  - intros key Hne. by rewrite lookup_insert_ne.
Qed.

Lemma regenerate_without_user_message_witness :
  ∃ w' e,
    regenerateResponse_start (Some "u") sample_uuid sample_clock "m2"
      (sample_world [sample_answer]) = Returned w'
    ∧ messages (st w') = [sample_answer; e]
    ∧ isError e = true.
Proof.
  destruct (regenerate_without_user_message "u" sample_uuid sample_clock
              "m2" (sample_world [sample_answer]) 0 sample_answer sample_A)
    as (w' & e & Hr & _ & He & _ & _ & Hm & _);
    [reflexivity | reflexivity | intros j x Hj; lia | reflexivity |].
  exists w', e. split_and!; [exact Hr | exact Hm | exact He].
Defined.

(** ** Frame lemmas for renders and replies *)

Lemma touch_world (clock : nat → string) (cid : string)
    (convs : list Conversation) (w : World) :
  ∃ n, (touch clock cid convs w).2 = with_ticks n w.
Proof.
  revert w. induction convs as [|conv rest IH]; intros w; cbn.
  - exists (ticks w). by destruct w.
  - destruct (decide (conv_id conv = cid)) as [Heq|Hne].
    + destruct (IH (tick w)) as [n Hn].
      destruct (touch clock cid rest (tick w)) as [rest' w']. cbn in *.
      exists n. by rewrite Hn.
    + destruct (IH w) as [n Hn].
      destruct (touch clock cid rest w) as [rest' w']. cbn in *.
      by exists n.
Qed.

(** A render rewrites the message log, the last user message and the
    loading indicator, and nothing else. *)
Lemma render_shape (currentUser : option string) (w : World) :
  ∃ msgs l lum,
    render currentUser w
    = {| st := {| messages := msgs;
                  conversations := conversations (st w);
                  activeConversation := activeConversation (st w);
                  isLoading := l; lastUserMessage := lum;
                  abortController := abortController (st w);
                  processingConversationId :=
                    processingConversationId (st w) |};
         localStorage := localStorage w; aborted := aborted w;
         ticks := ticks w; activeRef := activeRef w; rendered := deps w |}.
Proof.
  unfold render. destruct (decide (deps w = rendered w)) as [Heq|Hne].
  - exists (messages (st w)), (isLoading (st w)), (lastUserMessage (st w)).
    rewrite Heq. by destruct w as [[] ? ? ? ? ?].
  - unfold message_effect. destruct (activeConversation (st w)) eqn:Ha.
    + unfold loadConversationMessages. destruct currentUser.
      * destruct (last _); cbn; rewrite Ha; by eexists _, _, _.
      * cbn. rewrite Ha. by eexists _, _, _.
    + cbn. rewrite Ha. by eexists _, _, _.
Qed.

(** The successful reply of [sendMessage], when the closure's
    [activeConversation] is the target conversation, as it is for every
    frame [sendMessage_start] leaves.  The guards of the handler compare
    the closure's [activeConversation] with an id taken from it, so the
    handler sets the log and clears the loading indicator whatever
    conversation [w] has active; the render that follows reloads the log
    of that conversation. *)
Lemma sendMessage_resume_resolved (u : string) (uuidv4 clock : nat → string)
    (f : SendFrame) (reply : string) (w : World) :
  sf_currentUser f = Some u →
  active_is (sf_env f) (sf_currentConversationId f) = true →
  ∃ n convs' k,
    sendMessage_resume uuidv4 clock f (Resolved reply) w
    = {| st := {| messages := sf_updatedMessages f ++ [n];
                  conversations := convs';
                  activeConversation := activeConversation (st w);
                  isLoading := false;
                  lastUserMessage := lastUserMessage (st w);
                  abortController := None;
                  processingConversationId := None |};
         localStorage :=
           <[messages_key u (sf_currentConversationId f) :=
               JsonMessages (sf_updatedMessages f ++ [n])]>
             (<[conversations_key u := JsonConversations convs']>
                (localStorage w));
         aborted := aborted w; ticks := k; activeRef := activeRef w;
         rendered := rendered w |}
    ∧ sender n = ai ∧ content n = reply ∧ isError n = false.
Proof.
  intros Hu Hact. unfold sendMessage_resume. rewrite Hu. cbn.
  destruct (touch_world clock (sf_currentConversationId f)
              (conversations (sf_env f)) (tick (tick w))) as [k Hk].
  destruct (touch clock _ _ _) as [convs' wt]. cbn in Hk. subst wt.
  unfold finally_block. rewrite Hact. cbn.
  eexists (ai_message _ reply _ _), convs', k. done.
Qed.

(** The successful reply of [regenerateResponse], likewise. *)
Lemma regenerateResponse_resume_resolved (u : string)
    (uuidv4 clock : nat → string) (f : RegenFrame) (reply : string)
    (w : World) :
  rf_currentUser f = Some u →
  active_is (rf_env f) (rf_currentConversationId f) = true →
  ∃ n convs' k,
    regenerateResponse_resume uuidv4 clock f (Resolved reply) w
    = {| st := {| messages := rf_updatedMessages f ++ [n];
                  conversations := convs';
                  activeConversation := activeConversation (st w);
                  isLoading := false;
                  lastUserMessage := rf_userMessageContent f;
                  abortController := None;
                  processingConversationId := None |};
         localStorage :=
           <[messages_key u (rf_currentConversationId f) :=
               JsonMessages (rf_updatedMessages f ++ [n])]>
             (<[conversations_key u := JsonConversations convs']>
                (localStorage w));
         aborted := aborted w; ticks := k; activeRef := activeRef w;
         rendered := rendered w |}
    ∧ sender n = ai ∧ content n = reply ∧ isError n = false.
Proof.
  intros Hu Hact. unfold regenerateResponse_resume. rewrite Hu. cbn.
  destruct (touch_world clock (rf_currentConversationId f)
              (conversations (rf_env f)) (tick (tick w))) as [k Hk].
  destruct (touch clock _ _ _) as [convs' wt]. cbn in Hk. subst wt.
  unfold finally_block. rewrite Hact. cbn.
  eexists (ai_message _ reply _ _), convs', k. done.
Qed.

(** The failed reply of [regenerateResponse], likewise: the apology is
    appended to the log read back from storage. *)
Lemma regenerateResponse_resume_failed (u : string)
    (uuidv4 clock : nat → string) (f : RegenFrame) (w : World) :
  rf_currentUser f = Some u →
  active_is (rf_env f) (rf_currentConversationId f) = true →
  ∃ e,
    regenerateResponse_resume uuidv4 clock f Failed w
    = {| st := {| messages :=
                    stored_messages
                      (localStorage w
                         !! messages_key u (rf_currentConversationId f))
                    ++ [e];
                  conversations := conversations (st w);
                  activeConversation := activeConversation (st w);
                  isLoading := false;
                  lastUserMessage := lastUserMessage (st w);
                  abortController := None;
                  processingConversationId := None |};
         localStorage :=
           <[messages_key u (rf_currentConversationId f) :=
               JsonMessages
                 (stored_messages
                    (localStorage w
                       !! messages_key u (rf_currentConversationId f))
                  ++ [e])]>
             (localStorage w);
         aborted := aborted w; ticks := S (S (ticks w));
         activeRef := activeRef w; rendered := rendered w |}
    ∧ sender e = ai ∧ content e = regenerate_apology ∧ isError e = true.
Proof.
  intros Hu Hact.
  unfold regenerateResponse_resume, catch_block, finally_block.
  rewrite Hu. cbn. rewrite Hact. cbn.
  eexists (error_message _ regenerate_apology _). done.
Qed.

(** A reply that settles with an [AbortError]: only the [finally] block
    runs. *)
Lemma resume_aborted (uuidv4 clock : nat → string) (f : SendFrame)
    (w : World) :
  active_is (sf_env f) (sf_currentConversationId f) = true →
  sendMessage_resume uuidv4 clock f AbortError w
  = setIsLoading false
      (setAbortController None (setProcessingConversationId None w)).
Proof.
  intros Hact. unfold sendMessage_resume, finally_block. by rewrite Hact.
Qed.

(** [sendMessage] in a render with an active conversation. *)
Lemma sendMessage_start_active (u : string) (uuidv4 clock : nat → string)
    (text : string) (w : World) (a : Conversation) :
  activeConversation (st w) = Some a →
  ∃ w1 f um,
    sendMessage_start (Some u) uuidv4 clock text w = Awaiting w1 f
    ∧ sf_env f = st w
    ∧ sf_currentConversationId f = conv_id a
    ∧ sf_updatedMessages f = messages (st w) ++ [um]
    ∧ sender um = user ∧ content um = text
    ∧ messages (st w1) = messages (st w) ++ [um]
    ∧ localStorage w1 !! messages_key u (conv_id a)
      = Some (JsonMessages (messages (st w) ++ [um]))
    ∧ conv_id <$> activeConversation (st w1) = Some (conv_id a)
    ∧ processingConversationId (st w1) = Some (conv_id a)
    ∧ abortController (st w1) = Some (sf_controller f)
    ∧ isLoading (st w1) = true
    ∧ aborted w1 = aborted w.
Proof.
  intros Ha. unfold sendMessage_start. rewrite Ha.
  assert (Hact : active_is (st w) (conv_id a) = true).
  { unfold active_is. rewrite Ha. by apply bool_decide_eq_true. }
  cbn. rewrite Hact.
  eexists _, _, (user_message _ text _). split; [reflexivity|].
  unfold saveToLocalStorage.
  destruct (decide (length (messages (st w)) = 0)) as [Hz|Hnz]; cbn.
  - rewrite Ha. cbn. split_and!; try done. by rewrite lookup_insert_eq.
  - split_and!; try done; [by rewrite lookup_insert_eq | by rewrite Ha].
Qed.

(** The frame keeps the [currentUser] of the render that sent. *)
Lemma sendMessage_start_user (currentUser : option string)
    (uuidv4 clock : nat → string) (text : string) (w w1 : World)
    (f : SendFrame) :
  sendMessage_start currentUser uuidv4 clock text w = Awaiting w1 f →
  sf_currentUser f = currentUser.
Proof.
  unfold sendMessage_start.
  destruct (activeConversation (st w)) as [a|]; [|done].
  cbn. by intros [= _ <-].
Qed.

Lemma sendMessage_start_env (currentUser : option string)
    (uuidv4 clock : nat → string) (text : string) (w w1 : World)
    (f : SendFrame) :
  sendMessage_start currentUser uuidv4 clock text w = Awaiting w1 f →
  sf_env f = st w.
Proof.
  unfold sendMessage_start.
  destruct (activeConversation (st w)) as [a|]; [|done].
  cbn. by intros [= _ <-].
Qed.

Lemma regenerateResponse_start_user (currentUser : option string)
    (uuidv4 clock : nat → string) (messageId : string) (w w1 : World)
    (f : RegenFrame) :
  regenerateResponse_start currentUser uuidv4 clock messageId w
  = Awaiting w1 f →
  rf_currentUser f = currentUser.
Proof.
  unfold regenerateResponse_start.
  destruct (list_find _ _) as [[i m]|]; [|done].
  destruct (decide _); [done|].
  destruct (activeConversation (st w)) as [a|]; [|done].
  unfold newAbortController. cbv beta iota zeta.
  destruct (user_before _ _) as [[k um]|]; [|done].
  by intros [= _ <-].
Qed.

(** After a render the effect bookkeeping agrees with the state. *)
Lemma render_fields (currentUser : option string) (w : World) :
  let w' := render currentUser w in
  localStorage w' = localStorage w
  ∧ activeConversation (st w') = activeConversation (st w)
  ∧ conversations (st w') = conversations (st w)
  ∧ processingConversationId (st w') = processingConversationId (st w)
  ∧ abortController (st w') = abortController (st w)
  ∧ aborted w' = aborted w
  ∧ activeRef w' = activeRef w
  ∧ rendered w' = deps w.
Proof.
  destruct (render_shape currentUser w) as (msgs & l & lum & ->). done.
Qed.

(** What a render shows when the message effect runs. *)
Lemma render_reloads (u : string) (w : World) (c : Conversation) :
  deps w ≠ rendered w →
  activeConversation (st w) = Some c →
  messages (st (render (Some u) w))
  = stored_messages (localStorage w !! messages_key u (conv_id c)).
Proof.
  intros Hne Ha.
  by rewrite render_messages, decide_False, message_effect_messages, Ha.
Qed.

(** The switch to a conversation other than the active one, and the render
    that follows it. *)
Lemma switch_fields (u : string) (w : World) (a b : Conversation) :
  conv_id <$> activeConversation (st w) = Some (conv_id a) →
  conv_id b ≠ conv_id a →
  rendered w = deps w →
  let w' := render (Some u) (setActiveConversationWithStorage (Some u) b w) in
  activeConversation (st w') = Some b
  ∧ messages (st w')
    = stored_messages (localStorage w !! messages_key u (conv_id b))
  ∧ (∀ cid, localStorage w' !! messages_key u cid
            = localStorage w !! messages_key u cid)
  ∧ processingConversationId (st w') = processingConversationId (st w)
  ∧ abortController (st w') = abortController (st w)
  ∧ aborted w' = aborted w
  ∧ rendered w' = (S (activeRef w), processingConversationId (st w))
  ∧ activeRef w' = S (activeRef w).
Proof.
  intros Hid Hne Hsettled w'. subst w'.
  unfold setActiveConversationWithStorage.
  assert (Hact : active_is (st w) (conv_id b) = false).
  { unfold active_is. rewrite Hid. apply bool_decide_eq_false. congruence. }
  rewrite Hact.
  set (w1 := with_storage _ _).
  assert (Hls : ∀ cid, localStorage w1 !! messages_key u cid
                       = localStorage w !! messages_key u cid).
  { intros cid. subst w1. cbn. rewrite lookup_insert_ne; [done|].
    intros Heq. symmetry in Heq. by apply messages_key_not_active in Heq. }
  assert (Hdeps : deps w1 ≠ rendered w1).
  { subst w1. cbn. rewrite Hsettled. unfold deps. cbn. intros [=]. lia. }
  destruct (render_fields (Some u) w1)
    as (Hl & Ha & _ & Hp & Hc & Hab & Hr & Hrd).
  split_and!.
  - by rewrite Ha.
  - rewrite (render_reloads u w1 b Hdeps); [by rewrite Hls | done].
  - intros cid. by rewrite Hl.
  - by rewrite Hp.
  - by rewrite Hc.
  - by rewrite Hab.
  - by rewrite Hrd.
  - by rewrite Hr.
Qed.

(** ** Send, switch, reply *)

(** On the plain trace (a send on [A], a switch to [B], the reply
    resolving while the request is still the one marked pending) the
    render that follows the reply re-runs the message effect, which puts
    [B]'s log back: the log persisted under [A]'s key has the reply and
    the rendered log is [B]'s again. *)
Lemma reply_after_switch (u : string) (uuidv4 clock : nat → string)
    (text reply : string) (w : World) (A B : Conversation) :
  activeConversation (st w) = Some A →
  conv_id B ≠ conv_id A →
  ∃ w1 f um,
    sendMessage_start (Some u) uuidv4 clock text w = Awaiting w1 f
    ∧ sender um = user ∧ content um = text
    ∧ let w2 := render (Some u) w1 in
      let w3 :=
        render (Some u) (setActiveConversationWithStorage (Some u) B w2) in
      let w4 :=
        render (Some u)
          (sendMessage_resume uuidv4 clock f (Resolved reply) w3) in
      ∃ am,
        sender am = ai ∧ content am = reply ∧ isError am = false
        ∧ activeConversation (st w3) = Some B
        ∧ messages (st w3)
          = stored_messages (localStorage w3 !! messages_key u (conv_id B))
        ∧ localStorage w3 !! messages_key u (conv_id A)
          = Some (JsonMessages (messages (st w) ++ [um]))
        ∧ localStorage w4 !! messages_key u (conv_id A)
          = Some (JsonMessages (messages (st w) ++ [um; am]))
        ∧ activeConversation (st w4) = Some B
        ∧ messages (st w4) = messages (st w3).
Proof.
  intros HA Hne.
  destruct (sendMessage_start_active u uuidv4 clock text w A HA)
    as (w1 & f & um & Hstart & Henv & Hcid & Hupd & Hsu & Hcu & _ & Hls1
        & Hact1 & Hproc1 & _).
  exists w1, f, um. split_and!; [done..|]. intros w2 w3 w4.
  destruct (render_fields (Some u) w1)
    as (Hl2 & Ha2 & _ & Hp2 & _ & _ & Hr2 & Hrd2).
  fold w2 in Hl2, Ha2, Hp2, Hr2, Hrd2.
  destruct (switch_fields u w2 A B) as (Ha3 & Hm3 & Hls3 & Hp3 & _ & _ & Hrd3 & Hr3).
  { by rewrite Ha2. }
  { done. }
  { rewrite Hrd2. unfold deps. by rewrite Hr2, Hp2. }
  fold w3 in Ha3, Hm3, Hls3, Hp3, Hrd3, Hr3.
  pose proof (sendMessage_start_user _ _ _ _ _ _ _ Hstart) as Hfu.
  assert (Hguard : active_is (sf_env f) (sf_currentConversationId f) = true).
  { unfold active_is. rewrite Henv, Hcid, HA. by apply bool_decide_eq_true. }
  destruct (sendMessage_resume_resolved u uuidv4 clock f reply w3 Hfu
              Hguard)
    as (am & convs' & k & Hres & Ham & Hcm & Hem).
  set (w3' := sendMessage_resume _ _ _ _ _) in *.
  assert (Ha3' : activeConversation (st w3') = Some B)
    by (by rewrite Hres).
  assert (Hdeps : deps w3' ≠ rendered w3').
  { rewrite Hres. unfold deps. cbn. rewrite Hrd3, Hp2, Hproc1. congruence. }
  destruct (render_fields (Some u) w3') as (Hl4 & Ha4 & _).
  fold w4 in Hl4, Ha4.
  exists am. split_and!; try done.
  - by rewrite Hls3.
  - by rewrite Hls3, Hl2.
  - rewrite Hl4, Hres. cbn. rewrite Hcid, lookup_insert_eq, Hupd.
    by rewrite <- app_assoc.
  - by rewrite Ha4.
  - unfold w4. rewrite (render_reloads u w3' B Hdeps Ha3'), Hres. cbn.
    rewrite Hcid, !lookup_insert_ne, Hls3, Hm3; [done | |].
    + intros Heq. symmetry in Heq.
      by apply messages_key_not_conversations in Heq.
    + intros Heq. apply messages_key_inj in Heq. congruence.
Qed.

(** ** Stop *)

Lemma render_keeps_log (u : string) (w : World) (a : Conversation)
    (l : list Message) :
  conv_id <$> activeConversation (st w) = Some (conv_id a) →
  messages (st w) = l →
  localStorage w !! messages_key u (conv_id a) = Some (JsonMessages l) →
  messages (st (render (Some u) w)) = l.
Proof.
  intros Hid Hm Hls. rewrite render_messages, message_effect_messages.
  destruct (decide _); [done|].
  destruct (activeConversation (st w)) as [c|]; [|done].
  injection Hid as ->. by rewrite Hls.
Qed.

Lemma finally_idle (w : World) :
  isLoading (st w) = false →
  abortController (st w) = None →
  processingConversationId (st w) = None →
  setIsLoading false
    (setAbortController None (setProcessingConversationId None w)) = w.
Proof. destruct w as [[] ? ? ? ? ?]. cbn. by intros -> -> ->. Qed.

(** C2, the claim as stated, on the sample world: Stop is called while the
    send is pending, the reply operation resolves all the same, and the
    assistant reply is then both persisted and shown. *)
Lemma stop_then_late_reply_counterexample :
  ∃ w1 f,
    sendMessage_start (Some "u") sample_uuid sample_clock "Hello"
      (sample_world []) = Awaiting w1 f
    ∧ let w2 := render (Some "u") (stopResponse (render (Some "u") w1)) in
      let w3 :=
        render (Some "u")
          (sendMessage_resume sample_uuid sample_clock f
             (Resolved "Hi") w2) in
      sf_controller f ∈ aborted w2
      ∧ ∃ am, sender am = ai ∧ content am = "Hi"
            ∧ last (messages (st w3)) = Some am
            ∧ localStorage w3 !! "u_messages_A"
              = Some (JsonMessages (messages (st w2) ++ [am])).
Proof.
  eexists _, _. split; [vm_compute; reflexivity|]. cbv zeta.
  split; [vm_compute; set_solver|].
  eexists (ai_message _ "Hi" _ _). split_and!; [done | done | |];
    vm_compute; reflexivity.
Qed.

(** A send, Stop, and the request settling with the cancellation error,
    with nothing in between. *)
Lemma stop_right_after_send (u : string)
    (uuidv4 clock : nat → string) (text : string) (w : World)
    (A : Conversation) :
  activeConversation (st w) = Some A →
  ∃ w1 f um,
    sendMessage_start (Some u) uuidv4 clock text w = Awaiting w1 f
    ∧ sender um = user ∧ content um = text
    ∧ let w2 := render (Some u) (stopResponse (render (Some u) w1)) in
      let w3 :=
        render (Some u)
          (sendMessage_resume uuidv4 clock f AbortError w2) in
      sf_controller f ∈ aborted w2
      ∧ isLoading (st w2) = false
      ∧ processingConversationId (st w2) = None
      ∧ abortController (st w2) = None
      ∧ messages (st w2) = messages (st w) ++ [um]
      ∧ messages (st w3) = messages (st w) ++ [um]
      ∧ localStorage w3 = localStorage w2
      ∧ localStorage w3 !! messages_key u (conv_id A)
        = Some (JsonMessages (messages (st w) ++ [um])).
Proof.
  intros HA.
  destruct (sendMessage_start_active u uuidv4 clock text w A HA)
    as (w1 & f & um & Hstart & Henv & Hcid & Hupd & Hsu & Hcu & Hm1 & Hls1
        & Hact1 & Hproc1 & Hab1 & _).
  exists w1, f, um. split_and!; [done..|]. intros w2 w3.
  assert (Hm1' : messages (st (render (Some u) w1)) = messages (st w) ++ [um])
    by (by apply (render_keeps_log u w1 A)).
  destruct (render_shape (Some u) w1) as (msgs & l & lum & Hw1').
  set (w1' := render (Some u) w1) in *.
  assert (Hstop : stopResponse w1'
                  = setProcessingConversationId None
                      (setAbortController None
                         (setIsLoading false (abort (sf_controller f) w1')))).
  { unfold stopResponse. rewrite Hw1'. cbn. by rewrite Hab1. }
  set (ws := stopResponse w1') in *.
  assert (Hdeps : deps ws ≠ rendered ws).
  { rewrite Hstop, Hw1'. unfold deps. cbn. rewrite Hproc1. congruence. }
  assert (Hm2 : messages (st w2) = messages (st w) ++ [um]).
  { apply (render_keeps_log u ws A).
    - rewrite Hstop, Hw1'. cbn. done.
    - rewrite Hstop. cbn. done.
    - rewrite Hstop, Hw1'. cbn. done. }
  destruct (render_fields (Some u) ws)
    as (Hl2 & Ha2 & _ & Hp2 & Hc2 & Hb2 & Hr2 & Hrd2).
  fold w2 in Hl2, Ha2, Hp2, Hc2, Hb2, Hr2, Hrd2.
  assert (Hload2 : isLoading (st w2) = false).
  { subst w2. unfold render. rewrite decide_False by done. cbn.
    unfold message_effect.
    destruct (activeConversation (st ws)) as [c|] eqn:Hc.
    - cbn. apply bool_decide_eq_false. rewrite Hstop. cbn. congruence.
    - cbn. rewrite Hstop. done. }
  pose proof (sendMessage_start_user _ _ _ _ _ _ _ Hstart) as Hfu.
  assert (Hguard : active_is (sf_env f) (sf_currentConversationId f) = true).
  { unfold active_is. rewrite Henv, Hcid, HA. by apply bool_decide_eq_true. }
  assert (Hres : sendMessage_resume uuidv4 clock f AbortError w2
                 = w2).
  { rewrite (resume_aborted uuidv4 clock f w2 Hguard).
    apply finally_idle; [done | by rewrite Hc2, Hstop | by rewrite Hp2, Hstop]. }
  assert (Hw3 : w3 = w2).
  { subst w3. rewrite Hres. unfold render.
    rewrite decide_True; [done|]. rewrite Hrd2. unfold deps.
    by rewrite Hr2, Hp2. }
  split_and!.
  - rewrite Hb2, Hstop. cbn. apply elem_of_union. left.
    by apply elem_of_singleton.
  - done.
  - rewrite Hp2, Hstop. done.
  - rewrite Hc2, Hstop. done.
  - done.
  - by rewrite Hw3.
  - by rewrite Hw3.
  - rewrite Hw3, Hl2, Hstop, Hw1'. cbn. done.
Qed.

(** ** Regenerate *)

Lemma filter_all {A : Type} (P : A → Prop) `{∀ x, Decision (P x)}
    (l : list A) :
  (∀ x, x ∈ l → P x) → filter P l = l.
Proof.
  induction l as [|x l IH]; intros Hall; [done|].
  rewrite filter_cons_True by (apply Hall; by left).
  f_equal. apply IH. intros y Hy. apply Hall. by right.
Qed.

(** The target found by [findIndex] splits the log. *)
Lemma found_split (messageId : string) (msgs : list Message) (i : nat)
    (m : Message) :
  list_find (λ msg, msg_id msg = messageId) msgs = Some (i, m) →
  msgs = take i msgs ++ m :: drop (S i) msgs
  ∧ (i < length msgs)%nat
  ∧ msg_id m = messageId
  ∧ ∀ x, x ∈ take i msgs → msg_id x ≠ messageId.
Proof.
  intros (Hi & Hid & Hmin)%list_find_Some. split_and!.
  - by rewrite <- (drop_S _ _ _ Hi), take_drop.
  - by eapply lookup_lt_Some.
  - done.
  - intros x (j & Hj & Hlt)%elem_of_take. by eapply Hmin.
Qed.

(** On the last message the filter of [regenerateResponse] removes the
    target and nothing else. *)
Lemma filter_last (messageId : string) (msgs : list Message) (i : nat)
    (m : Message) :
  list_find (λ msg, msg_id msg = messageId) msgs = Some (i, m) →
  S i = length msgs →
  msgs = take i msgs ++ [m]
  ∧ filter (λ msg, msg_id msg ≠ messageId) msgs = take i msgs.
Proof.
  intros Hfind Hlast.
  destruct (found_split _ _ _ _ Hfind) as (Hsplit & _ & Hid & Hbefore).
  rewrite drop_ge in Hsplit by lia. split; [done|].
  rewrite Hsplit at 1. rewrite filter_app, filter_all by done.
  rewrite filter_cons_False by (intros Hne; by apply Hne).
  by rewrite filter_nil, app_nil_r.
Qed.

Lemma regenerateResponse_start_found (u : string)
    (uuidv4 clock : nat → string) (messageId : string) (w : World)
    (i : nat) (m : Message) (a : Conversation) :
  list_find (λ msg, msg_id msg = messageId) (messages (st w)) = Some (i, m) →
  sender m = ai →
  (∃ j x, (j < i)%nat ∧ messages (st w) !! j = Some x ∧ sender x = user) →
  activeConversation (st w) = Some a →
  ∃ w1 f,
    regenerateResponse_start (Some u) uuidv4 clock messageId w
    = Awaiting w1 f
    ∧ rf_env f = st w
    ∧ rf_currentConversationId f = conv_id a
    ∧ rf_updatedMessages f = take i (messages (st w))
    ∧ messages (st w1) = take i (messages (st w))
    ∧ localStorage w1 !! messages_key u (conv_id a)
      = Some (JsonMessages (take i (messages (st w))))
    ∧ activeConversation (st w1) = Some a
    ∧ processingConversationId (st w1) = Some (conv_id a).
Proof.
  intros Hfind Hai Huser Ha.
  destruct (found_split _ _ _ _ Hfind) as (_ & Hlt & _ & _).
  destruct (user_before_Some (messages (st w)) i) as (k & um & Hub & _);
    [lia | done |].
  assert (Hupd : (if (i <? length (messages (st w)) - 1)%nat
                  then take i (messages (st w))
                  else filter (λ msg, msg_id msg ≠ messageId)
                         (messages (st w)))
                 = take i (messages (st w))).
  { destruct (i <? length (messages (st w)) - 1)%nat eqn:Hcmp; [done|].
    apply Nat.ltb_ge in Hcmp.
    apply (filter_last messageId _ i m Hfind). lia. }
  assert (Hact : active_is (st w) (conv_id a) = true).
  { unfold active_is. rewrite Ha. by apply bool_decide_eq_true. }
  unfold regenerateResponse_start.
  rewrite Hfind, decide_False by (rewrite Hai; tauto).
  rewrite Ha. unfold newAbortController. cbv beta iota zeta.
  rewrite Hub, Hact, Hupd.
  eexists _, _. split; [reflexivity|]. cbn. unfold saveToLocalStorage.
  split_and!; try done. by rewrite lookup_insert_eq.
Qed.

(** C3. [regenerateResponse] on an assistant message that has a user
    message before it, with a request that is not cancelled: the new log,
    visible and persisted under the active conversation's key, is the
    messages before the target, untouched, followed by exactly one new
    assistant message, which carries the reply when the request resolves
    and the apology when it fails.  When the target is the last message
    the old log is those earlier messages followed by the target, so
    exactly the target is removed; otherwise the target and all that
    followed it are cut. *)
Theorem regenerate_replaces_from_target (u : string)
    (uuidv4 clock : nat → string) (messageId : string) (o : Outcome)
    (w : World) (i : nat) (m : Message) (a : Conversation) :
  list_find (λ msg, msg_id msg = messageId) (messages (st w)) = Some (i, m) →
  sender m = ai →
  (∃ j x, (j < i)%nat ∧ messages (st w) !! j = Some x ∧ sender x = user) →
  activeConversation (st w) = Some a →
  o ≠ AbortError →
  ∃ w1 f,
    regenerateResponse_start (Some u) uuidv4 clock messageId w
    = Awaiting w1 f
    ∧ let earlier := take i (messages (st w)) in
      let w2 :=
        render (Some u)
          (regenerateResponse_resume uuidv4 clock f o
             (render (Some u) w1)) in
      ∃ n,
        sender n = ai
        ∧ (∀ reply, o = Resolved reply →
                    content n = reply ∧ isError n = false)
        ∧ (o = Failed → content n = regenerate_apology ∧ isError n = true)
        ∧ messages (st w2) = earlier ++ [n]
        ∧ localStorage w2 !! messages_key u (conv_id a)
          = Some (JsonMessages (earlier ++ [n]))
        ∧ messages (st w) = earlier ++ m :: drop (S i) (messages (st w))
        ∧ (S i = length (messages (st w)) →
           messages (st w) = earlier ++ [m]).
Proof.
  intros Hfind Hai Huser Ha Ho.
  destruct (regenerateResponse_start_found u uuidv4 clock messageId w i m a
              Hfind Hai Huser Ha)
    as (w1 & f & Hstart & Henv & Hcid & Hupd & _ & Hls1 & Ha1 & _).
  exists w1, f. split; [done|]. intros earlier w2.
  destruct (render_fields (Some u) w1) as (Hl1' & Ha1' & _).
  set (w1' := render (Some u) w1) in *.
  pose proof (regenerateResponse_start_user _ _ _ _ _ _ _ Hstart) as Hfu.
  assert (Hguard : active_is (rf_env f) (rf_currentConversationId f) = true).
  { unfold active_is. rewrite Henv, Hcid, Ha. by apply bool_decide_eq_true. }
  assert (Hres : ∃ n,
             sender n = ai
             ∧ (∀ reply, o = Resolved reply →
                         content n = reply ∧ isError n = false)
             ∧ (o = Failed → content n = regenerate_apology ∧ isError n = true)
             ∧ messages
                 (st (regenerateResponse_resume uuidv4 clock f o w1'))
               = earlier ++ [n]
             ∧ localStorage
                 (regenerateResponse_resume uuidv4 clock f o w1')
                 !! messages_key u (conv_id a)
               = Some (JsonMessages (earlier ++ [n]))
             ∧ activeConversation
                 (st (regenerateResponse_resume uuidv4 clock f o w1'))
               = Some a).
  { destruct o as [reply| |]; [|done|].
    - destruct (regenerateResponse_resume_resolved u uuidv4 clock f reply w1'
                  Hfu Hguard)
        as (n & convs' & k & -> & Hn & Hcn & Hen).
      exists n. cbn. rewrite Hcid, lookup_insert_eq, Hupd, Ha1', Ha1.
      split_and!; try done. by intros ? [= <-].
    - destruct (regenerateResponse_resume_failed u uuidv4 clock f w1' Hfu
                  Hguard)
        as (e & -> & He & Hce & Hee).
      exists e. cbn. rewrite Hcid, lookup_insert_eq, Hl1', Hls1, Ha1', Ha1.
      split_and!; done. }
  destruct Hres as (n & Hn & Hok & Hko & Hm & Hl & Hact).
  set (wr := regenerateResponse_resume _ _ _ _ _) in *.
  exists n. split_and!; try done.
  - apply (render_keeps_log u wr a); [by rewrite Hact | done | done].
  - destruct (render_fields (Some u) wr) as (Hlr & _). fold w2 in Hlr.
    by rewrite Hlr.
  - by destruct (found_split _ _ _ _ Hfind) as (? & _).
  - intros Hlast. by destruct (filter_last _ _ _ _ Hfind Hlast) as [? _].
Qed.

Lemma regenerate_replaces_from_target_witness :
  ∃ w1 f,
    regenerateResponse_start (Some "u") sample_uuid sample_clock "m2"
      (sample_world [sample_question; sample_answer; sample_question])
    = Awaiting w1 f
    ∧ ∃ n,
        content n = "Hi again"
        ∧ messages
            (st (render (Some "u")
                   (regenerateResponse_resume sample_uuid
                      sample_clock f (Resolved "Hi again")
                      (render (Some "u") w1))))
          = [sample_question; n].
Proof.
  destruct (regenerate_replaces_from_target "u" sample_uuid sample_clock
              "m2" (Resolved "Hi again")
              (sample_world [sample_question; sample_answer; sample_question])
              1 sample_answer sample_A)
    as (w1 & f & Hs & H);
    [reflexivity | reflexivity
     | exists 0, sample_question; split_and!; [lia | reflexivity..]
     | reflexivity | discriminate |].
  exists w1, f. split; [exact Hs|].
  cbv zeta in H. destruct H as (n & _ & Hc & _ & Hm & _).
  exists n. split; [apply (Hc "Hi again"); reflexivity | exact Hm].
Defined.

(** * Further properties of the controller *)

(** ** The persisted index mirrors the store *)

Lemma active_key_not_conversations (u : string) :
  active_key u ≠ conversations_key u.
Proof.
  unfold active_key, conversations_key. intros H.
  apply (inj (String.app u)) in H. discriminate H.
Qed.

Lemma lookup_index_after_messages (u cid : string) (v : Stored)
    (ls : gmap string Stored) :
  <[messages_key u cid := v]> ls !! conversations_key u
  = ls !! conversations_key u.
Proof.
  apply lookup_insert_ne, messages_key_not_conversations.
Qed.

Lemma render_index (u : string) (w : World) :
  index_mirrors_store u w → index_mirrors_store u (render (Some u) w).
Proof.
  unfold index_mirrors_store.
  destruct (render_fields (Some u) w) as (-> & _ & -> & _). done.
Qed.

Lemma catch_block_index (u : string) (uuidv4 clock : nat → string)
    (env : RState) (cid apology : string) (w : World) :
  index_mirrors_store u w →
  index_mirrors_store u (catch_block (Some u) uuidv4 clock env cid apology w).
Proof.
  unfold index_mirrors_store, catch_block, saveToLocalStorage. intros H.
  destruct (active_is env cid); cbn; by rewrite lookup_index_after_messages.
Qed.

Lemma finally_block_index (u : string) (env : RState) (cid : string)
    (w : World) :
  index_mirrors_store u w → index_mirrors_store u (finally_block env cid w).
Proof.
  unfold index_mirrors_store, finally_block.
  by destruct (active_is env cid).
Qed.

Lemma createNewConversation_index (u : string) (uuidv4 clock : nat → string)
    (env : RState) (base : option (list Conversation)) (w : World) :
  index_mirrors_store u
    (createNewConversation (Some u) uuidv4 clock env base w).
Proof.
  unfold index_mirrors_store, createNewConversation. cbn.
  unfold saveToLocalStorage. by rewrite lookup_insert_eq.
Qed.

Lemma loadUserConversations_empty (u : string) (uuidv4 clock : nat → string)
    (env : RState) (w : World) :
  stored_conversations (localStorage w !! conversations_key u) = [] →
  loadUserConversations (Some u) uuidv4 clock env w
  = createNewConversation (Some u) uuidv4 clock env None
      (setConversations [] w).
Proof.
  intros Hs. unfold loadUserConversations, getFromLocalStorage. rewrite Hs.
  cbn. by destruct (truthy _).
Qed.

Lemma loadUserConversations_index (u : string) (uuidv4 clock : nat → string)
    (env : RState) (w : World) :
  index_mirrors_store u (loadUserConversations (Some u) uuidv4 clock env w).
Proof.
  destruct (stored_conversations (localStorage w !! conversations_key u))
    as [|c0 l] eqn:Hs.
  - rewrite loadUserConversations_empty by done.
    apply createNewConversation_index.
  - assert (Hk : localStorage w !! conversations_key u
                 = Some (JsonConversations (c0 :: l))).
    { destruct (localStorage w !! conversations_key u) as [[?|?|?]|];
        cbn in Hs; congruence. }
    unfold loadUserConversations, getFromLocalStorage. rewrite Hs.
    destruct (if truthy _ then _ else _); unfold index_mirrors_store; cbn;
      done.
Qed.

Lemma sendMessage_resume_index (u : string) (uuidv4 clock : nat → string)
    (f : SendFrame) (o : Outcome) (w : World) :
  sf_currentUser f = Some u →
  index_mirrors_store u w →
  index_mirrors_store u (sendMessage_resume uuidv4 clock f o w).
Proof.
  intros Hu H. unfold sendMessage_resume. rewrite Hu.
  apply finally_block_index.
  destruct o as [reply| |]; [|done|by apply catch_block_index].
  cbn. destruct (touch clock _ _ _) as [convs' wt].
  unfold index_mirrors_store, saveToLocalStorage.
  destruct (active_is _ _); cbn;
    by rewrite lookup_index_after_messages, lookup_insert_eq.
Qed.

Lemma regenerateResponse_resume_index (u : string)
    (uuidv4 clock : nat → string) (f : RegenFrame) (o : Outcome)
    (w : World) :
  rf_currentUser f = Some u →
  index_mirrors_store u w →
  index_mirrors_store u
    (regenerateResponse_resume uuidv4 clock f o w).
Proof.
  intros Hu H. unfold regenerateResponse_resume. rewrite Hu.
  apply finally_block_index.
  destruct o as [reply| |]; [|done|by apply catch_block_index].
  cbn. destruct (touch clock _ _ _) as [convs' wt].
  unfold index_mirrors_store, saveToLocalStorage.
  destruct (active_is _ _); cbn;
    by rewrite lookup_index_after_messages, lookup_insert_eq.
Qed.

Lemma sendMessage_start_index (u : string) (uuidv4 clock : nat → string)
    (text : string) (w : World) :
  index_mirrors_store u w →
  index_mirrors_store u
    (world_of (sendMessage_start (Some u) uuidv4 clock text w)).
Proof.
  intros H. unfold sendMessage_start.
  destruct (activeConversation (st w)) as [a|] eqn:Ha.
  - unfold index_mirrors_store in *. cbn. unfold saveToLocalStorage.
    destruct (decide (length (messages (st w)) = 0)),
      (active_is (st w) (conv_id a)); cbn;
      rewrite ?lookup_index_after_messages, ?lookup_insert_eq; done.
  - apply createNewConversation_index.
Qed.

Lemma regenerateResponse_start_index (u : string)
    (uuidv4 clock : nat → string) (messageId : string) (w : World) :
  index_mirrors_store u w →
  index_mirrors_store u
    (world_of (regenerateResponse_start (Some u) uuidv4 clock messageId w)).
Proof.
  intros H. unfold regenerateResponse_start.
  destruct (list_find _ _) as [[i m]|]; [|done].
  destruct (decide (sender m ≠ ai)); [done|].
  destruct (activeConversation (st w)) as [a|] eqn:Ha; [|done].
  unfold newAbortController. cbv beta iota zeta.
  destruct (user_before _ _) as [[k um]|].
  - unfold index_mirrors_store in *. cbn. unfold saveToLocalStorage.
    destruct (active_is (st w) (conv_id a)); cbn;
      by rewrite lookup_index_after_messages.
  - cbn [world_of]. by apply finally_block_index, catch_block_index.
Qed.

Lemma deleteConversation_index (u cid : string) (w : World) :
  index_mirrors_store u (deleteConversation (Some u) cid w).
Proof.
  destruct (deleteConversation_store (Some u) cid w) as [Hc _].
  unfold index_mirrors_store. rewrite Hc.
  unfold deleteConversation, saveToLocalStorage. cbn.
  by rewrite lookup_insert_eq.
Qed.

Lemma handle_index (u : string) (uuidv4 clock : nat → string)
    (a : Action) (w : World) :
  sent_by (Some u) a →
  index_mirrors_store u w →
  index_mirrors_store u (handle (Some u) uuidv4 clock a w).
Proof.
  intros Hby H. destruct a; cbn [handle].
  - apply loadUserConversations_index.
  - apply createNewConversation_index.
  - unfold setActiveConversationWithStorage, index_mirrors_store in *.
    destruct (active_is _ _); [done|]. cbn.
    by rewrite lookup_insert_ne by apply active_key_not_conversations.
  - apply deleteConversation_index.
  - unfold deleteAllConversations. apply createNewConversation_index.
  - unfold provideMessageFeedback, index_mirrors_store in *.
    destruct (list_find _ _) as [[i m]|]; [|done].
    destruct (decide _); [done|].
    destruct (activeConversation (st w)); cbn; [|done].
    unfold saveToLocalStorage. by rewrite lookup_index_after_messages.
  - unfold stopResponse, index_mirrors_store in *.
    by destruct (abortController (st w)).
  - by apply sendMessage_start_index.
  - by apply regenerateResponse_start_index.
  - by apply sendMessage_resume_index.
  - by apply regenerateResponse_resume_index.
Qed.

(** X4. For a signed-in user the conversation index in storage is the
    in-memory conversation sequence after every action, the replies of
    that user's own requests included, once it was so; and it is so after
    the conversations are loaded, whatever storage held. *)
Theorem index_mirrors_store_kept (u : string) (uuidv4 clock : nat → string)
    (l : list Action) (w : World) :
  Forall (sent_by (Some u)) l →
  (index_mirrors_store u w →
   index_mirrors_store u (acts (Some u) uuidv4 clock l w))
  ∧ index_mirrors_store u (acts (Some u) uuidv4 clock (DoLoad :: l) w).
Proof.
  intros Hby.
  assert (Hkept : ∀ w, index_mirrors_store u w →
                       index_mirrors_store u (acts (Some u) uuidv4 clock l w)).
  { clear w. induction Hby as [|a l Ha Hl IH]; intros w H; [done|].
    cbn. apply IH. unfold act. by apply render_index, handle_index. }
  split; [apply Hkept|].
  cbn. apply Hkept. unfold act. apply render_index. cbn [handle].
  apply loadUserConversations_index.
Qed.

Lemma index_mirrors_store_kept_witness :
  index_mirrors_store "u"
    (acts (Some "u") sample_uuid sample_clock
       [DoSend "Hello"; DoSwitch sample_B;
        SendSettles sample_frame (Resolved "Hi"); DoDelete "A";
        DoCreate None]
       (sample_world [])).
Proof.
  refine (proj1 (index_mirrors_store_kept "u" sample_uuid sample_clock
                   [DoSend "Hello"; DoSwitch sample_B;
                    SendSettles sample_frame (Resolved "Hi"); DoDelete "A";
                    DoCreate None]
                   (sample_world []) _) _).
  - repeat constructor.
  - vm_compute. reflexivity.
Defined.

(** ** The visible log mirrors storage *)

Lemma render_mirror (u : string) (w : World) :
  deps w ≠ rendered w ∨ visible_mirrors_storage u w →
  visible_mirrors_storage u (render (Some u) w)
  ∧ settled (render (Some u) w).
Proof.
  intros H.
  destruct (render_fields (Some u) w)
    as (Hl & Ha & _ & Hp & _ & _ & Hr & Hrd).
  split.
  - unfold visible_mirrors_storage.
    rewrite Ha, Hl, render_messages, message_effect_messages.
    destruct (decide (deps w = rendered w)) as [Heq|Hne].
    + by destruct H.
    + by destruct (activeConversation (st w)).
  - unfold settled. rewrite Hrd. unfold deps. by rewrite Hr, Hp.
Qed.

Lemma bumped (w w' : World) :
  activeRef w' = S (activeRef w) → deps w' ≠ deps w.
Proof. unfold deps. intros H [= Heq _]. lia. Qed.

Lemma createNewConversation_bumps (u : string) (uuidv4 clock : nat → string)
    (env : RState) (base : option (list Conversation)) (w : World) :
  rendered (createNewConversation (Some u) uuidv4 clock env base w)
  = rendered w
  ∧ activeRef (createNewConversation (Some u) uuidv4 clock env base w)
    = S (activeRef w).
Proof. done. Qed.

Lemma deleteConversation_storage (u cid : string) (w : World) :
  localStorage (deleteConversation (Some u) cid w)
  = <[conversations_key u :=
        JsonConversations
          (filter (λ conv, conv_id conv ≠ cid) (conversations (st w)))]>
      (delete (messages_key u cid) (localStorage w)).
Proof.
  unfold deleteConversation.
  by destruct (abortController (st w)),
    (bool_decide (processingConversationId (st w) = Some cid)),
    (active_is _ _).
Qed.

(** What a user's call leaves for the render: a changed dependency of the
    message effect, or a visible log that is the stored one. *)
Lemma handle_mirror (u : string) (uuidv4 clock : nat → string)
    (a : Action) (w : World) :
  user_action a = true →
  visible_mirrors_storage u w →
  rendered (handle (Some u) uuidv4 clock a w) = rendered w
  ∧ (deps (handle (Some u) uuidv4 clock a w) ≠ deps w
     ∨ visible_mirrors_storage u (handle (Some u) uuidv4 clock a w)).
Proof.
  intros Hua Hm. destruct a; try discriminate Hua; cbn [handle].
  - (* load *)
    unfold loadUserConversations.
    destruct (stored_conversations _) as [|c0 l];
      destruct (if truthy _ then _ else _);
      (split; [done | left; by apply bumped]).
  - (* create *)
    split; [done | left; by apply bumped].
  - (* switch *)
    unfold setActiveConversationWithStorage.
    destruct (active_is _ _); [by split; [|right]|].
    split; [done | left; by apply bumped].
  - (* delete *)
    destruct (deleteConversation_store (Some u) conversationId w)
      as [_ Hact].
    assert (Hr : rendered (deleteConversation (Some u) conversationId w)
                 = rendered w).
    { unfold deleteConversation.
      by destruct (abortController (st w)),
        (bool_decide (processingConversationId (st w) = Some conversationId)),
        (active_is _ _). }
    split; [done|].
    destruct (active_is (st w) conversationId) eqn:Hai.
    + left. apply bumped. unfold deleteConversation. rewrite Hai.
      unfold active_is in Hai. apply bool_decide_eq_true in Hai.
      destruct (activeConversation (st w)) as [c|] eqn:Hc; [|done].
      destruct (abortController (st w)),
        (bool_decide (processingConversationId (st w) = Some conversationId)),
        (list_find _ _); cbn; by rewrite ?Hc.
    + right. unfold visible_mirrors_storage in *. rewrite Hact.
      unfold active_is in Hai. apply bool_decide_eq_false in Hai.
      assert (Hmsgs : messages (st (deleteConversation (Some u)
                                      conversationId w)) = messages (st w)).
      { unfold deleteConversation.
        by destruct (abortController (st w)),
          (bool_decide
             (processingConversationId (st w) = Some conversationId)),
          (active_is _ _). }
      rewrite Hmsgs.
      destruct (activeConversation (st w)) as [c|] eqn:Hc; [|done].
      rewrite Hm, deleteConversation_storage. f_equal.
      rewrite lookup_insert_ne, lookup_delete_ne; [done | |].
      * intros Heq%messages_key_inj. apply Hai. cbn. by rewrite Heq.
      * intros Heq. symmetry in Heq.
        by apply messages_key_not_conversations in Heq.
  - (* delete all *)
    unfold deleteAllConversations, deps.
    destruct (abortController (st w)),
      (truthy (processingConversationId (st w))),
      (activeConversation (st w)) eqn:Hc; cbn; rewrite ?Hc;
      (split; [done | left; intros Heq; injection Heq; intros; lia]).
  - (* feedback *)
    unfold provideMessageFeedback.
    destruct (list_find _ _) as [[i m]|] eqn:Hfind; [|by split; [|right]].
    destruct (decide _); [by split; [|right]|].
    destruct (activeConversation (st w)) as [c|] eqn:Hc.
    + split; [done|]. right. unfold visible_mirrors_storage. cbn.
      rewrite Hc. unfold saveToLocalStorage. by rewrite lookup_insert_eq.
    + unfold visible_mirrors_storage in Hm. rewrite Hc in Hm.
      rewrite Hm in Hfind. discriminate Hfind.
  - (* stop *)
    unfold stopResponse.
    destruct (abortController (st w)); (split; [done | right; exact Hm]).
  - (* send *)
    unfold sendMessage_start.
    destruct (activeConversation (st w)) as [c|] eqn:Hc.
    + assert (Hact : active_is (st w) (conv_id c) = true).
      { unfold active_is. rewrite Hc. by apply bool_decide_eq_true. }
      cbn. rewrite Hact.
      destruct (decide (length (messages (st w)) = 0)).
      * split; [done|]. left. apply bumped. cbn. by rewrite Hc.
      * split; [done|]. right. unfold visible_mirrors_storage. cbn.
        rewrite Hc. unfold saveToLocalStorage. by rewrite lookup_insert_eq.
    + split; [done | left; by apply bumped].
  - (* regenerate *)
    unfold regenerateResponse_start.
    destruct (list_find _ _) as [[i m]|]; [|by split; [|right]].
    destruct (decide _); [by split; [|right]|].
    destruct (activeConversation (st w)) as [c|] eqn:Hc;
      [|split; [done | right]].
    2: { unfold visible_mirrors_storage in *. cbn. by rewrite Hc in *. }
    assert (Hact : active_is (st w) (conv_id c) = true).
    { unfold active_is. rewrite Hc. by apply bool_decide_eq_true. }
    unfold newAbortController. cbv beta iota zeta.
    destruct (user_before _ _) as [[k um]|]; rewrite ?Hact.
    + split; [done|]. right. unfold visible_mirrors_storage. cbn.
      rewrite Hc. unfold saveToLocalStorage. by rewrite lookup_insert_eq.
    + unfold finally_block, catch_block. rewrite Hact. cbn.
      split; [done|]. right. unfold visible_mirrors_storage. cbn.
      rewrite Hc. unfold saveToLocalStorage. by rewrite lookup_insert_eq.
Qed.

Lemma act_mirror (u : string) (uuidv4 clock : nat → string)
    (a : Action) (w : World) :
  user_action a = true →
  settled w → visible_mirrors_storage u w →
  settled (act (Some u) uuidv4 clock a w)
  ∧ visible_mirrors_storage u (act (Some u) uuidv4 clock a w).
Proof.
  intros Hua Hs Hm.
  destruct (handle_mirror u uuidv4 clock a w Hua Hm) as [Hr Hd].
  destruct (render_mirror u (handle (Some u) uuidv4 clock a w)) as [? ?];
    [|done].
  destruct Hd as [Hd|Hd]; [left | by right].
  rewrite Hr, Hs. exact Hd.
Qed.

(** X3. For a signed-in user, once the component has rendered after a
    call (load, create, switch, delete, delete all, feedback, stop, send,
    regenerate), the visible log is the log stored under the active
    conversation's key, or empty when no conversation is active; this
    holds along any sequence of such calls from a state where it held. *)
Theorem visible_log_mirrors_storage (u : string)
    (uuidv4 clock : nat → string) (l : list Action) (w : World) :
  forallb user_action l = true →
  settled w → visible_mirrors_storage u w →
  settled (acts (Some u) uuidv4 clock l w)
  ∧ visible_mirrors_storage u (acts (Some u) uuidv4 clock l w).
Proof.
  revert w. induction l as [|a l IH]; intros w Hl Hs Hm; [done|].
  cbn in Hl. apply andb_prop in Hl as [Ha Hl].
  destruct (act_mirror u uuidv4 clock a w Ha Hs Hm) as [Hs' Hm'].
  cbn. by apply IH.
Qed.

Lemma visible_log_mirrors_storage_witness :
  visible_mirrors_storage "u"
    (acts (Some "u") sample_uuid sample_clock
       [DoLoad; DoSend "Hello"; DoStop; DoSwitch sample_B;
        DoRegenerate "m2"; DoDelete "B"; DoFeedback "m2" true]
       (mounted (localStorage (sample_world [sample_question;
                                             sample_answer])))).
Proof.
  exact (proj2 (visible_log_mirrors_storage "u" sample_uuid sample_clock
                  [DoLoad; DoSend "Hello"; DoStop; DoSwitch sample_B;
                   DoRegenerate "m2"; DoDelete "B"; DoFeedback "m2" true]
                  (mounted (localStorage (sample_world [sample_question;
                                                        sample_answer])))
                  eq_refl eq_refl eq_refl)).
Defined.

(** ** Replies and the mirror *)

Lemma finally_block_fields (env : RState) (cid : string) (w : World) :
  let w' := finally_block env cid w in
  rendered w' = rendered w
  ∧ activeRef w' = activeRef w
  ∧ processingConversationId (st w') = None
  ∧ messages (st w') = messages (st w)
  ∧ activeConversation (st w') = activeConversation (st w)
  ∧ localStorage w' = localStorage w.
Proof. unfold finally_block. by destruct (active_is env cid). Qed.

Lemma catch_block_fields (cu : option string) (uuidv4 clock : nat → string)
    (env : RState) (cid apology : string) (w : World) :
  let w' := catch_block cu uuidv4 clock env cid apology w in
  rendered w' = rendered w ∧ activeRef w' = activeRef w.
Proof. unfold catch_block. by destruct cu, (active_is env cid). Qed.

Lemma sendMessage_resume_deps (uuidv4 clock : nat → string)
    (f : SendFrame) (o : Outcome) (w : World) :
  let w' := sendMessage_resume uuidv4 clock f o w in
  rendered w' = rendered w
  ∧ activeRef w' = activeRef w
  ∧ processingConversationId (st w') = None.
Proof.
  unfold sendMessage_resume.
  set (body := match o with Resolved _ => _ | _ => _ end).
  destruct (finally_block_fields (sf_env f) (sf_currentConversationId f) body)
    as (-> & -> & -> & _).
  assert (rendered body = rendered w ∧ activeRef body = activeRef w)
    as [-> ->]; [|done].
  subst body. destruct o as [reply| |]; [|done|apply catch_block_fields].
  cbn.
  destruct (touch_world clock (sf_currentConversationId f)
              (conversations (sf_env f)) (tick (tick w))) as [k Hk].
  destruct (touch clock _ _ _) as [convs' wt]. cbn in Hk. subst wt.
  unfold save_for_user.
  by destruct (sf_currentUser f), (active_is _ _).
Qed.

Lemma regenerateResponse_resume_deps (uuidv4 clock : nat → string)
    (f : RegenFrame) (o : Outcome) (w : World) :
  let w' := regenerateResponse_resume uuidv4 clock f o w in
  rendered w' = rendered w
  ∧ activeRef w' = activeRef w
  ∧ processingConversationId (st w') = None.
Proof.
  unfold regenerateResponse_resume.
  set (body := match o with Resolved _ => _ | _ => _ end).
  destruct (finally_block_fields (rf_env f) (rf_currentConversationId f) body)
    as (-> & -> & -> & _).
  assert (rendered body = rendered w ∧ activeRef body = activeRef w)
    as [-> ->]; [|done].
  subst body. destruct o as [reply| |]; [|done|apply catch_block_fields].
  cbn.
  destruct (touch_world clock (rf_currentConversationId f)
              (conversations (rf_env f)) (tick (tick w))) as [k Hk].
  destruct (touch clock _ _ _) as [convs' wt]. cbn in Hk. subst wt.
  unfold save_for_user.
  by destruct (rf_currentUser f), (active_is _ _).
Qed.

Lemma settles_mirror (u : string) (w w' : World) :
  settled w → visible_mirrors_storage u w →
  rendered w' = rendered w →
  activeRef w' = activeRef w →
  processingConversationId (st w') = None →
  (processingConversationId (st w) = None →
   messages (st w') = messages (st w)
   ∧ activeConversation (st w') = activeConversation (st w)
   ∧ localStorage w' = localStorage w) →
  settled (render (Some u) w')
  ∧ visible_mirrors_storage u (render (Some u) w').
Proof.
  intros Hs Hm Hr Ha Hp Hsame.
  destruct (render_mirror u w') as [? ?]; [|done].
  destruct (processingConversationId (st w)) as [p|] eqn:Hpw.
  - left. rewrite Hr, Hs. unfold deps. rewrite Hp, Hpw. congruence.
  - right. destruct Hsame as (Hms & Hac & Hls); [done|].
    unfold visible_mirrors_storage in *. by rewrite Hms, Hac, Hls.
Qed.

(** X5. For a signed-in user, a reply that settles while its request is
    still marked pending, or that settles with the cancellation error,
    leaves the visible log equal to the stored log of the conversation
    then active, whatever conversation the request was sent from. *)
Theorem reply_keeps_mirror (u : string) (uuidv4 clock : nat → string)
    (a : Action) (w : World) :
  settled w → visible_mirrors_storage u w →
  (∃ f, a = SendSettles f AbortError)
  ∨ (∃ f, a = RegenerateSettles f AbortError)
  ∨ (user_action a = false ∧ processingConversationId (st w) ≠ None) →
  settled (act (Some u) uuidv4 clock a w)
  ∧ visible_mirrors_storage u (act (Some u) uuidv4 clock a w).
Proof.
  intros Hs Hm Hcase. unfold act.
  destruct Hcase as [[f ->]|[[f ->]|[Hua Hp]]].
  - cbn [handle].
    destruct (sendMessage_resume_deps uuidv4 clock f AbortError w)
      as (Hr & Ha & Hpn).
    apply (settles_mirror u w); try done. intros _.
    by destruct (finally_block_fields (sf_env f)
                   (sf_currentConversationId f) w) as (_ & _ & _ & ? & ? & ?).
  - cbn [handle].
    destruct (regenerateResponse_resume_deps uuidv4 clock f AbortError w)
      as (Hr & Ha & Hpn).
    apply (settles_mirror u w); try done. intros _.
    by destruct (finally_block_fields (rf_env f)
                   (rf_currentConversationId f) w) as (_ & _ & _ & ? & ? & ?).
  - destruct a; try discriminate Hua; cbn [handle].
    + destruct (sendMessage_resume_deps uuidv4 clock f o w)
        as (Hr & Ha & Hpn).
      apply (settles_mirror u w); done.
    + destruct (regenerateResponse_resume_deps uuidv4 clock f o w)
        as (Hr & Ha & Hpn).
      apply (settles_mirror u w); done.
Qed.

Lemma reply_keeps_mirror_witness :
  visible_mirrors_storage "u"
    (act (Some "u") sample_uuid sample_clock
       (SendSettles sample_frame (Resolved "Hi")) sample_switched).
Proof.
  refine (proj2 (reply_keeps_mirror "u" sample_uuid sample_clock
                   (SendSettles sample_frame (Resolved "Hi"))
                   sample_switched _ _
                   (or_intror (or_intror (conj eq_refl _))))).
  - vm_compute. reflexivity.
  - vm_compute. reflexivity.
  - vm_compute. discriminate.
Defined.

(** ** Loading the conversations *)

Lemma getItem_truthy (key s : string) (ls : gmap string Stored) :
  getItem key ls = Some s → s ≠ "" → truthy (getItem key ls) = true.
Proof. intros -> Hs. cbn. by apply bool_decide_eq_true. Qed.

Lemma load_follows_marker (u : string) (uuidv4 clock : nat → string)
    (env : RState) (w : World) (c : Conversation) :
  c ∈ stored_conversations (localStorage w !! conversations_key u) →
  getItem (active_key u) (localStorage w) = Some (conv_id c) →
  conv_id c ≠ "" →
  conversations (st (loadUserConversations (Some u) uuidv4 clock env w))
  = stored_conversations (localStorage w !! conversations_key u)
  ∧ ∃ c', activeConversation
            (st (loadUserConversations (Some u) uuidv4 clock env w))
          = Some c'
        ∧ conv_id c' = conv_id c
        ∧ c' ∈ stored_conversations
                 (localStorage w !! conversations_key u).
Proof.
  set (stored := stored_conversations _).
  set (marker := getItem _ _).
  intros Hc Hmk Hne.
  unfold loadUserConversations, getFromLocalStorage. fold stored.
  cbn [localStorage setConversations with_st]. fold marker.
  assert (Ht : truthy marker = true)
    by (by apply (getItem_truthy (active_key u) (conv_id c)
                    (localStorage w))).
  rewrite Ht.
  destruct (list_find (λ conv, Some (conv_id conv) = marker) stored)
    as [[j c']|] eqn:Hfind.
  - apply list_find_Some in Hfind as (Hj & Heq & _). cbn.
    split; [done|]. exists c'. split_and!; [done | |].
    + rewrite Hmk in Heq. by injection Heq.
    + eapply list_elem_of_lookup_2, Hj.
  - apply list_find_None in Hfind.
    rewrite Forall_forall in Hfind. by destruct (Hfind c Hc).
Qed.

(** X1. [loadUserConversations] for a signed-in user shows the stored
    conversation sequence and makes active: the stored conversation the
    persisted marker names, when there is one; else the first stored
    conversation; else, nothing being stored, a new conversation titled
    ["New Conversation"], which it puts in front of the conversations of
    the closure and persists. *)
Theorem load_selects_active (u : string) (uuidv4 clock : nat → string)
    (env : RState) (w : World) :
  let stored :=
    stored_conversations (localStorage w !! conversations_key u) in
  let marker := getItem (active_key u) (localStorage w) in
  let w' := loadUserConversations (Some u) uuidv4 clock env w in
  (∀ c, c ∈ stored → marker = Some (conv_id c) → conv_id c ≠ "" →
        conversations (st w') = stored
        ∧ ∃ c', activeConversation (st w') = Some c'
              ∧ conv_id c' = conv_id c ∧ c' ∈ stored)
  ∧ (∀ first rest, stored = first :: rest →
        (truthy marker = false
         ∨ ∀ c, c ∈ stored → Some (conv_id c) ≠ marker) →
        conversations (st w') = stored
        ∧ activeConversation (st w') = Some first)
  ∧ (stored = [] →
     ∃ c, activeConversation (st w') = Some c
        ∧ title c = "New Conversation"
        ∧ conversations (st w') = c :: conversations env
        ∧ localStorage w' !! conversations_key u
          = Some (JsonConversations (c :: conversations env))).
Proof.
  intros stored marker w'. split_and!.
  - intros c Hc Hmk Hne. by apply load_follows_marker.
  - intros first rest Hst Hno. subst w'.
    unfold loadUserConversations, getFromLocalStorage. fold stored.
    cbn [localStorage setConversations with_st]. fold marker.
    assert (Hnone : (if truthy marker
                     then snd <$> list_find
                                    (λ conv, Some (conv_id conv) = marker)
                                    stored
                     else None) = None).
    { destruct Hno as [->|Hno]; [done|].
      destruct (truthy marker); [|done].
      destruct (list_find _ stored) as [[j c']|] eqn:Hfind; [|done].
      apply list_find_Some in Hfind as (Hj & Heq & _).
      destruct (Hno c'); [eapply list_elem_of_lookup_2, Hj | done]. }
    rewrite Hnone, Hst. done.
  - intros Hst. subst w'. rewrite loadUserConversations_empty by done.
    eexists. cbn. unfold saveToLocalStorage. rewrite lookup_insert_eq.
    done.
Qed.

Lemma load_selects_active_witness :
  ∃ c', activeConversation
          (st (loadUserConversations (Some "u") sample_uuid sample_clock
                 (st initial_world) (mounted sample_marked)))
        = Some c'
      ∧ conv_id c' = "B".
Proof.
  destruct (load_selects_active "u" sample_uuid sample_clock
              (st initial_world) (mounted sample_marked)) as [Hmark _].
  destruct (Hmark sample_B) as (_ & c' & Ha & Hid & _).
  - vm_compute. right. left.
  - reflexivity.
  - discriminate.
  - exists c'. split; [exact Ha | exact Hid].
Defined.

(** X2. A switch to a conversation of the persisted index, other than the
    active one, survives a reload: a component that loads the
    conversations from the storage the switch left makes a conversation
    with that id active. *)
Theorem switch_survives_reload (u : string) (uuidv4 clock : nat → string)
    (b : Conversation) (w : World) (env : RState) (w2 : World) :
  active_is (st w) (conv_id b) = false →
  conv_id b ≠ "" →
  b ∈ stored_conversations (localStorage w !! conversations_key u) →
  localStorage w2
  = localStorage (setActiveConversationWithStorage (Some u) b w) →
  ∃ c, activeConversation
         (st (loadUserConversations (Some u) uuidv4 clock env w2))
       = Some c
     ∧ conv_id c = conv_id b
     ∧ c ∈ stored_conversations (localStorage w !! conversations_key u).
Proof.
  intros Hact Hne Hb Hls.
  unfold setActiveConversationWithStorage in Hls. rewrite Hact in Hls.
  cbn in Hls.
  assert (Hidx : localStorage w2 !! conversations_key u
                 = localStorage w !! conversations_key u).
  { rewrite Hls. apply lookup_insert_ne, active_key_not_conversations. }
  destruct (load_follows_marker u uuidv4 clock env w2 b)
    as (_ & c & Ha & Hid & Hin).
  - by rewrite Hidx.
  - unfold getItem. by rewrite Hls, lookup_insert_eq.
  - done.
  - exists c. by rewrite <- Hidx.
Qed.

Lemma switch_survives_reload_witness :
  ∃ c, activeConversation
         (st (loadUserConversations (Some "u") sample_uuid sample_clock
                (st initial_world)
                (mounted
                   (localStorage
                      (setActiveConversationWithStorage (Some "u") sample_B
                         (sample_world []))))))
       = Some c
     ∧ conv_id c = "B".
Proof.
  destruct (switch_survives_reload "u" sample_uuid sample_clock sample_B
              (sample_world []) (st initial_world)
              (mounted
                 (localStorage
                    (setActiveConversationWithStorage (Some "u") sample_B
                       (sample_world [])))))
    as (c & Ha & Hid & _).
  - reflexivity.
  - discriminate.
  - vm_compute. right. left.
  - reflexivity.
  - exists c. split; [exact Ha | exact Hid].
Defined.

(** X6. [createNewConversation] does not write the marker of the active
    conversation: when the marker names a conversation of the sequence
    the new one is put in front of, a component that loads the
    conversations from the storage the creation left makes a conversation
    with the marker's id active; the new conversation, first in the index,
    is active then only if it bears that id. *)
Theorem created_conversation_not_marked (u : string)
    (uuidv4 clock : nat → string) (env : RState)
    (base : option (list Conversation)) (w : World) (c : Conversation)
    (env2 : RState) (w2 : World) :
  c ∈ default (conversations env) base →
  getItem (active_key u) (localStorage w) = Some (conv_id c) →
  conv_id c ≠ "" →
  localStorage w2
  = localStorage (createNewConversation (Some u) uuidv4 clock env base w) →
  getItem (active_key u) (localStorage w2) = Some (conv_id c)
  ∧ ∃ c', activeConversation
            (st (loadUserConversations (Some u) uuidv4 clock env2 w2))
          = Some c'
        ∧ conv_id c' = conv_id c.
Proof.
  intros Hc Hmk Hne Hls. cbn in Hls. unfold saveToLocalStorage in Hls.
  assert (Hmk2 : getItem (active_key u) (localStorage w2)
                 = Some (conv_id c)).
  { unfold getItem in *. rewrite Hls, lookup_insert_ne; [done|].
    intros Heq. symmetry in Heq.
    by apply active_key_not_conversations in Heq. }
  split; [done|].
  destruct (load_follows_marker u uuidv4 clock env2 w2 c)
    as (_ & c' & Ha & Hid & _); [|done|done|by exists c'].
  rewrite Hls, lookup_insert_eq. cbn. by right.
Qed.

Lemma created_conversation_not_marked_witness :
  ∃ c', activeConversation
          (st (loadUserConversations (Some "u") sample_uuid sample_clock
                 (st initial_world)
                 (mounted
                    (localStorage
                       (createNewConversation (Some "u") sample_uuid
                          sample_clock (sample_state []) None
                          sample_marked_world)))))
        = Some c'
      ∧ conv_id c' = "B".
Proof.
  destruct (created_conversation_not_marked "u" sample_uuid sample_clock
              (sample_state []) None sample_marked_world sample_B
              (st initial_world)
              (mounted
                 (localStorage
                    (createNewConversation (Some "u") sample_uuid
                       sample_clock (sample_state []) None
                       sample_marked_world))))
    as (_ & c' & Ha & Hid).
  - vm_compute. right. left.
  - reflexivity.
  - discriminate.
  - reflexivity.
  - exists c'. split; [exact Ha | exact Hid].
Defined.

(** ** A send from start to reply *)

Lemma render_isLoading (u : string) (w : World) :
  isLoading (st w) = false →
  processingConversationId (st w) = None →
  isLoading (st (render (Some u) w)) = false.
Proof.
  intros Hl Hp. unfold render. destruct (decide _); [done|]. cbn.
  unfold message_effect.
  destruct (activeConversation (st w)) as [c|]; cbn; [|done].
  rewrite Hp. by apply bool_decide_eq_false.
Qed.

(** The successful reply of [sendMessage] with its message spelled out. *)
Lemma sendMessage_resume_resolved_message (u : string)
    (uuidv4 clock : nat → string) (f : SendFrame) (reply : string)
    (w : World) :
  sf_currentUser f = Some u →
  active_is (sf_env f) (sf_currentConversationId f) = true →
  let n := ai_message (uuidv4 (ticks w)) reply (clock (S (ticks w)))
             (sf_preferredLanguage f) in
  ∃ convs' k,
    sendMessage_resume uuidv4 clock f (Resolved reply) w
    = {| st := {| messages := sf_updatedMessages f ++ [n];
                  conversations := convs';
                  activeConversation := activeConversation (st w);
                  isLoading := false;
                  lastUserMessage := lastUserMessage (st w);
                  abortController := None;
                  processingConversationId := None |};
         localStorage :=
           <[messages_key u (sf_currentConversationId f) :=
               JsonMessages (sf_updatedMessages f ++ [n])]>
             (<[conversations_key u := JsonConversations convs']>
                (localStorage w));
         aborted := aborted w; ticks := k; activeRef := activeRef w;
         rendered := rendered w |}.
Proof.
  intros Hu Hact n. unfold sendMessage_resume. rewrite Hu. cbn.
  destruct (touch_world clock (sf_currentConversationId f)
              (conversations (sf_env f)) (tick (tick w))) as [k Hk].
  destruct (touch clock _ _ _) as [convs' wt]. cbn in Hk. subst wt.
  unfold finally_block. rewrite Hact. cbn.
  by exists convs', k.
Qed.

(** The failed reply of [sendMessage]: the apology is appended to the log
    read back from storage. *)
Lemma sendMessage_resume_failed (u : string) (uuidv4 clock : nat → string)
    (f : SendFrame) (w : World) :
  sf_currentUser f = Some u →
  active_is (sf_env f) (sf_currentConversationId f) = true →
  ∃ e,
    sendMessage_resume uuidv4 clock f Failed w
    = {| st := {| messages :=
                    stored_messages
                      (localStorage w
                         !! messages_key u (sf_currentConversationId f))
                    ++ [e];
                  conversations := conversations (st w);
                  activeConversation := activeConversation (st w);
                  isLoading := false;
                  lastUserMessage := lastUserMessage (st w);
                  abortController := None;
                  processingConversationId := None |};
         localStorage :=
           <[messages_key u (sf_currentConversationId f) :=
               JsonMessages
                 (stored_messages
                    (localStorage w
                       !! messages_key u (sf_currentConversationId f))
                  ++ [e])]>
             (localStorage w);
         aborted := aborted w; ticks := S (S (ticks w));
         activeRef := activeRef w; rendered := rendered w |}
    ∧ sender e = ai ∧ content e = send_apology ∧ isError e = true.
Proof.
  intros Hu Hact. unfold sendMessage_resume, catch_block, finally_block.
  rewrite Hu. cbn. rewrite Hact. cbn.
  eexists (error_message _ send_apology _). done.
Qed.

Lemma sendMessage_start_language (u : string) (uuidv4 clock : nat → string)
    (text : string) (w w1 : World) (f : SendFrame) :
  sendMessage_start (Some u) uuidv4 clock text w = Awaiting w1 f →
  sf_preferredLanguage f = preferredLanguage_of (localStorage w)
  ∧ sf_content f = text
  ∧ sf_currentMessages f = messages (st w).
Proof.
  unfold sendMessage_start.
  destruct (activeConversation (st w)) as [a|]; [|done].
  cbn. by intros [= _ <-].
Qed.

(** X7. A send on the active conversation whose request is not cancelled:
    once the reply has settled and the component has rendered, the
    visible log and the log stored under the conversation's key are the
    log of before followed by the user's message and one assistant
    message.  That message carries the reply and the preferred language
    read from storage at the send (["en"] when none is stored) when the
    request resolves, and the fixed apology flagged as an error when it
    fails.  The loading indicator, the pending marker and the
    cancellation handle are cleared. *)
Theorem send_appends_exchange (u : string) (uuidv4 clock : nat → string)
    (text : string) (o : Outcome) (w : World) (a : Conversation) :
  activeConversation (st w) = Some a →
  o ≠ AbortError →
  ∃ w1 f um,
    sendMessage_start (Some u) uuidv4 clock text w = Awaiting w1 f
    ∧ sender um = user ∧ content um = text
    ∧ let w2 :=
        render (Some u)
          (sendMessage_resume uuidv4 clock f o
             (render (Some u) w1)) in
      ∃ n,
        sender n = ai
        ∧ (∀ reply, o = Resolved reply →
             content n = reply ∧ isError n = false
             ∧ language n = Some (preferredLanguage_of (localStorage w)))
        ∧ (o = Failed → content n = send_apology ∧ isError n = true)
        ∧ messages (st w2) = messages (st w) ++ [um; n]
        ∧ localStorage w2 !! messages_key u (conv_id a)
          = Some (JsonMessages (messages (st w) ++ [um; n]))
        ∧ isLoading (st w2) = false
        ∧ processingConversationId (st w2) = None
        ∧ abortController (st w2) = None.
Proof.
  intros HA Ho.
  destruct (sendMessage_start_active u uuidv4 clock text w a HA)
    as (w1 & f & um & Hstart & Henv & Hcid & Hupd & Hsu & Hcu & _ & Hls1
        & Hact1 & _).
  destruct (sendMessage_start_language u uuidv4 clock text w w1 f Hstart)
    as (Hlang & _).
  exists w1, f, um. split_and!; [done..|]. intros w2.
  destruct (render_fields (Some u) w1) as (Hl1' & Ha1' & _).
  set (w1' := render (Some u) w1) in *.
  pose proof (sendMessage_start_user _ _ _ _ _ _ _ Hstart) as Hfu.
  assert (Hguard : active_is (sf_env f) (sf_currentConversationId f) = true).
  { unfold active_is. rewrite Henv, Hcid, HA. by apply bool_decide_eq_true. }
  set (wr := sendMessage_resume uuidv4 clock f o w1') in *.
  assert (Hres : ∃ n,
             sender n = ai
             ∧ (∀ reply, o = Resolved reply →
                  content n = reply ∧ isError n = false
                  ∧ language n = Some (preferredLanguage_of (localStorage w)))
             ∧ (o = Failed → content n = send_apology ∧ isError n = true)
             ∧ messages (st wr) = messages (st w) ++ [um; n]
             ∧ localStorage wr !! messages_key u (conv_id a)
               = Some (JsonMessages (messages (st w) ++ [um; n]))
             ∧ conv_id <$> activeConversation (st wr) = Some (conv_id a)
             ∧ isLoading (st wr) = false
             ∧ processingConversationId (st wr) = None
             ∧ abortController (st wr) = None).
  { subst wr. destruct o as [reply| |]; [|done|].
    - destruct (sendMessage_resume_resolved_message u uuidv4 clock f reply
                  w1' Hfu Hguard) as (convs' & k & ->).
      exists (ai_message (uuidv4 (ticks w1')) reply (clock (S (ticks w1')))
                (sf_preferredLanguage f)).
      cbn.
      rewrite Hcid, lookup_insert_eq, Hupd, Ha1', Hact1, <- !app_assoc.
      cbn. split_and!; try done. intros ? [= <-]. by rewrite Hlang.
    - destruct (sendMessage_resume_failed u uuidv4 clock f w1' Hfu
                  Hguard)
        as (e & -> & He & Hce & Hee).
      exists e. cbn.
      rewrite Hcid, lookup_insert_eq, Hl1', Hls1, Ha1', Hact1. cbn.
      rewrite <- !app_assoc. split_and!; done. }
  destruct Hres as (n & Hn & Hok & Hko & Hm & Hl & Hact & Hld & Hp & Hc).
  destruct (render_fields (Some u) wr) as (Hlr & _ & _ & Hpr & Hcr & _).
  fold w2 in Hlr, Hpr, Hcr.
  exists n. split_and!; try done.
  - by apply (render_keeps_log u wr a).
  - by rewrite Hlr.
  - by apply render_isLoading.
  - by rewrite Hpr.
  - by rewrite Hcr.
Qed.

Lemma send_appends_exchange_witness :
  ∃ w1 f um,
    sendMessage_start (Some "u") sample_uuid sample_clock "And then?"
      (sample_world [sample_question; sample_answer]) = Awaiting w1 f
    ∧ ∃ n,
        content n = "Then this" ∧ language n = Some "fr"
        ∧ messages
            (st (render (Some "u")
                   (sendMessage_resume sample_uuid sample_clock f
                      (Resolved "Then this") (render (Some "u") w1))))
          = [sample_question; sample_answer; um; n].
Proof.
  destruct (send_appends_exchange "u" sample_uuid sample_clock "And then?"
              (Resolved "Then this")
              (sample_world [sample_question; sample_answer]) sample_A)
    as (w1 & f & um & Hs & _ & _ & H); [reflexivity | discriminate |].
  exists w1, f, um. split; [exact Hs|].
  cbv zeta in H. destruct H as (n & _ & Hok & _ & Hm & _).
  destruct (Hok "Then this" eq_refl) as (Hc & _ & Hl).
  exists n. split_and!; [exact Hc | exact Hl | exact Hm].
Defined.

(** ** Titles *)

(** X8. The first message of a conversation names it: when the visible
    log is empty at the send, every conversation of the store with the
    active conversation's id takes the title derived from the text, the
    others stay as they are, the active conversation shows that title and
    the index is persisted so.  A send on a log that is not empty renames
    nothing. *)
Theorem first_message_names_conversation (u : string)
    (uuidv4 clock : nat → string) (text : string) (w : World)
    (a : Conversation) :
  activeConversation (st w) = Some a →
  ∃ w1 f,
    sendMessage_start (Some u) uuidv4 clock text w = Awaiting w1 f
    ∧ (messages (st w) = [] →
       activeConversation (st w1) = Some (with_title (derive_title text) a)
       ∧ length (conversations (st w1)) = length (conversations (st w))
       ∧ (∀ j c, conversations (st w) !! j = Some c →
            conv_id c = conv_id a →
            conversations (st w1) !! j
            = Some (with_title (derive_title text) c))
       ∧ (∀ j c, conversations (st w) !! j = Some c →
            conv_id c ≠ conv_id a →
            conversations (st w1) !! j = Some c)
       ∧ localStorage w1 !! conversations_key u
         = Some (JsonConversations (conversations (st w1))))
    ∧ (messages (st w) ≠ [] →
       activeConversation (st w1) = Some a
       ∧ conversations (st w1) = conversations (st w)
       ∧ localStorage w1 !! conversations_key u
         = localStorage w !! conversations_key u).
Proof.
  intros HA. unfold sendMessage_start. rewrite HA.
  assert (Hact : active_is (st w) (conv_id a) = true).
  { unfold active_is. rewrite HA. by apply bool_decide_eq_true. }
  cbn. rewrite Hact. eexists _, _. split; [reflexivity|].
  unfold saveToLocalStorage. split.
  - intros Hm. rewrite decide_True by (by rewrite Hm). cbn.
    rewrite HA. cbn. split_and!; try done.
    + by rewrite length_map.
    + intros j c Hj Hid. rewrite list_lookup_fmap, Hj. cbn.
      unfold retitle. by rewrite decide_True.
    + intros j c Hj Hid. rewrite list_lookup_fmap, Hj. cbn.
      unfold retitle. by rewrite decide_False.
    + by rewrite lookup_index_after_messages, lookup_insert_eq.
  - intros Hm. rewrite decide_False by (by destruct (messages (st w))).
    cbn. split_and!; try done. by rewrite lookup_index_after_messages.
Qed.

Lemma first_message_names_conversation_witness :
  ∃ w1 f,
    sendMessage_start (Some "u") sample_uuid sample_clock
      "Please summarise the attached report" (sample_world [])
    = Awaiting w1 f
    ∧ conversations (st w1) !! 0
      = Some (with_title "Please summarise the attached ..." sample_A)
    ∧ conversations (st w1) !! 1 = Some sample_B.
Proof.
  destruct (first_message_names_conversation "u" sample_uuid sample_clock
              "Please summarise the attached report" (sample_world [])
              sample_A) as (w1 & f & Hs & Hfirst & _); [reflexivity|].
  destruct Hfirst as (_ & _ & Hsame & Hother & _); [reflexivity|].
  exists w1, f. split_and!; [exact Hs | |].
  - apply (Hsame 0 sample_A); reflexivity.
  - apply (Hother 1 sample_B); [reflexivity | discriminate].
Defined.

Lemma touch_keeps (clock : nat → string) (cid : string)
    (convs : list Conversation) (w : World) :
  title <$> (touch clock cid convs w).1 = title <$> convs
  ∧ conv_id <$> (touch clock cid convs w).1 = conv_id <$> convs
  ∧ userId <$> (touch clock cid convs w).1 = userId <$> convs.
Proof.
  revert w. induction convs as [|conv rest IH]; intros w; [done|]. cbn.
  destruct (decide (conv_id conv = cid)) as [Heq|Hne].
  - destruct (IH (tick w)) as (IH1 & IH2 & IH3).
    destruct (touch clock cid rest (tick w)) as [rest' w']. cbn in *.
    by rewrite IH1, IH2, IH3.
  - destruct (IH w) as (IH1 & IH2 & IH3).
    destruct (touch clock cid rest w) as [rest' w']. cbn in *.
    by rewrite IH1, IH2, IH3.
Qed.

Lemma sendMessage_resume_conversations (u : string)
    (uuidv4 clock : nat → string) (f : SendFrame) (reply : string)
    (w : World) :
  sf_currentUser f = Some u →
  let w' := sendMessage_resume uuidv4 clock f (Resolved reply) w in
  title <$> conversations (st w') = title <$> conversations (sf_env f)
  ∧ conv_id <$> conversations (st w') = conv_id <$> conversations (sf_env f)
  ∧ localStorage w' !! conversations_key u
    = Some (JsonConversations (conversations (st w'))).
Proof.
  intros Hu. unfold sendMessage_resume, finally_block. rewrite Hu. cbn.
  destruct (touch_keeps clock (sf_currentConversationId f)
              (conversations (sf_env f)) (tick (tick w))) as (Ht & Hi & _).
  destruct (touch clock _ _ _) as [convs' wt]. cbn in Ht, Hi.
  unfold saveToLocalStorage.
  destruct (active_is _ _); cbn;
    by rewrite lookup_index_after_messages, lookup_insert_eq.
Qed.

(** X9. A reply that resolves writes back the conversation list of the
    render that sent the message: whatever the store holds when the reply
    arrives, afterwards the store and the persisted index hold the
    conversations of that render, with their ids and titles, in their
    order.  The title the first message gave is thereby replaced in the
    store by the one of before, and a conversation created or deleted in
    between is dropped or back. *)
Theorem reply_writes_back_conversations (u : string)
    (uuidv4 clock : nat → string) (text reply : string) (w w1 : World)
    (f : SendFrame) (w' : World) :
  sendMessage_start (Some u) uuidv4 clock text w = Awaiting w1 f →
  let w2 :=
    render (Some u)
      (sendMessage_resume uuidv4 clock f (Resolved reply) w') in
  title <$> conversations (st w2) = title <$> conversations (st w)
  ∧ conv_id <$> conversations (st w2) = conv_id <$> conversations (st w)
  ∧ localStorage w2 !! conversations_key u
    = Some (JsonConversations (conversations (st w2))).
Proof.
  intros Hstart w2.
  pose proof (sendMessage_start_env (Some u) uuidv4 clock text w w1 f Hstart)
    as Henv.
  pose proof (sendMessage_start_user (Some u) uuidv4 clock text w w1 f Hstart)
    as Hfu.
  destruct (sendMessage_resume_conversations u uuidv4 clock f reply w' Hfu)
    as (Ht & Hi & Hl).
  destruct (render_fields (Some u)
              (sendMessage_resume uuidv4 clock f (Resolved reply) w'))
    as (Hlr & _ & Hcr & _).
  fold w2 in Hlr, Hcr. rewrite Hlr, Hcr, Ht, Hi, Henv. done.
Qed.

Lemma reply_writes_back_conversations_witness :
  let w2 :=
    render (Some "u")
      (sendMessage_resume sample_uuid sample_clock sample_frame
         (Resolved "Hi")
         (act (Some "u") sample_uuid sample_clock (DoDelete "B")
            (render (Some "u") sample_pending))) in
  title <$> conversations (st w2) = ["New Conversation"; "Other"]
  ∧ conv_id <$> conversations (st w2) = ["A"; "B"].
Proof.
  destruct (reply_writes_back_conversations "u" sample_uuid sample_clock
              "Hello" "Hi" (sample_world []) sample_pending sample_frame
              (act (Some "u") sample_uuid sample_clock (DoDelete "B")
                 (render (Some "u") sample_pending)))
    as (Ht & Hi & _); [reflexivity|].
  split; [exact Ht | exact Hi].
Defined.

(** ** Regenerate: what is sent again, no-ops and cancellation *)

Lemma user_before_nearest (msgs : list Message) (n k : nat) (m : Message) :
  user_before msgs n = Some (k, m) →
  (k < n)%nat ∧ msgs !! k = Some m ∧ sender m = user
  ∧ ∀ j x, (k < j < n)%nat → msgs !! j = Some x → sender x ≠ user.
Proof.
  induction n as [|n' IH]; [done|]. cbn.
  destruct (msgs !! n') as [x0|] eqn:Hn'; [|done].
  destruct (decide (sender x0 = user)) as [Hu|Hu].
  - intros [= <- <-]. split_and!; [lia | done | done |].
    intros j x Hj. lia.
  - intros Hub. destruct (IH Hub) as (Hk & Hm & Hs & Hbetween).
    split_and!; [lia | done | done |].
    intros j x Hj Hx. destruct (decide (j = n')) as [->|Hne].
    + congruence.
    + apply (Hbetween j); [lia | done].
Qed.

(** X10. When [regenerateResponse] issues a request for the assistant
    message at index [i], the content it sends is that of the nearest
    user message before [i], no user message lying between the two, and
    the history it sends is the log strictly before that user message. *)
Theorem regenerate_resends_nearest_user_message (u : string)
    (uuidv4 clock : nat → string) (messageId : string) (w w1 : World)
    (f : RegenFrame) (i : nat) (m : Message) :
  list_find (λ msg, msg_id msg = messageId) (messages (st w)) = Some (i, m) →
  regenerateResponse_start (Some u) uuidv4 clock messageId w
  = Awaiting w1 f →
  ∃ k um,
    messages (st w) !! k = Some um ∧ sender um = user ∧ (k < i)%nat
    ∧ (∀ j x, (k < j < i)%nat → messages (st w) !! j = Some x →
              sender x ≠ user)
    ∧ rf_userMessageContent f = content um
    ∧ rf_history f = take k (messages (st w)).
Proof.
  intros Hfind Hstart.
  destruct (found_split _ _ _ _ Hfind) as (_ & Hlt & _ & _).
  unfold regenerateResponse_start in Hstart. rewrite Hfind in Hstart.
  destruct (decide (sender m ≠ ai)); [done|].
  destruct (activeConversation (st w)) as [a|]; [|done].
  unfold newAbortController in Hstart. cbv beta iota zeta in Hstart.
  destruct (user_before (messages (st w)) i) as [[k um]|] eqn:Hub; [|done].
  destruct (user_before_nearest _ _ _ _ Hub) as (Hk & Hum & Hs & Hbetween).
  assert (Hupd : (if (i <? length (messages (st w)) - 1)%nat
                  then take i (messages (st w))
                  else filter (λ msg, msg_id msg ≠ messageId)
                         (messages (st w)))
                 = take i (messages (st w))).
  { destruct (i <? length (messages (st w)) - 1)%nat eqn:Hcmp; [done|].
    apply Nat.ltb_ge in Hcmp.
    apply (filter_last messageId _ i m Hfind). lia. }
  rewrite Hupd in Hstart. injection Hstart as _ <-. cbn.
  exists k, um. split_and!; try done.
  rewrite take_take. f_equal. lia.
Qed.

(** X11. [regenerateResponse] is a no-op, ending normally with every
    state cell and storage untouched, when the visible log has no
    assistant message with the given id: the id is absent, or the first
    message that bears it was sent by the user. *)
Theorem regenerate_ignores_other_ids (u : string)
    (uuidv4 clock : nat → string) (messageId : string) (w : World) :
  (∀ i m, list_find (λ msg, msg_id msg = messageId) (messages (st w))
          = Some (i, m) → sender m = user) →
  regenerateResponse_start (Some u) uuidv4 clock messageId w = Returned w.
Proof.
  intros Hno. unfold regenerateResponse_start.
  destruct (list_find _ _) as [[i m]|]; [|done].
  rewrite decide_True; [done|]. by rewrite (Hno i m).
Qed.

Lemma regenerate_ignores_other_ids_witness :
  regenerateResponse_start (Some "u") sample_uuid sample_clock "m1"
    (sample_world [sample_question; sample_answer])
  = Returned (sample_world [sample_question; sample_answer])
  ∧ regenerateResponse_start (Some "u") sample_uuid sample_clock "m9"
      (sample_world [sample_question; sample_answer])
    = Returned (sample_world [sample_question; sample_answer]).
Proof.
  split; apply regenerate_ignores_other_ids; intros i m Hfind;
    vm_compute in Hfind; [by injection Hfind as _ <- | discriminate].
Defined.

Lemma regenerate_resends_nearest_user_message_witness :
  ∃ k um,
    messages (st sample_long_world) !! k = Some um ∧ sender um = user
    ∧ (k < 2)%nat
    ∧ (∀ j x, (k < j < 2)%nat → messages (st sample_long_world) !! j = Some x →
              sender x ≠ user)
    ∧ rf_userMessageContent sample_regen_frame = content um
    ∧ rf_history sample_regen_frame = take k (messages (st sample_long_world)).
Proof.
  apply (regenerate_resends_nearest_user_message "u" sample_uuid sample_clock
           "m3" sample_long_world
           (world_of
              (regenerateResponse_start (Some "u") sample_uuid sample_clock
                 "m3" sample_long_world))
           sample_regen_frame 2 sample_more);
    vm_compute; reflexivity.
Defined.

(** X12. A regeneration that is stopped leaves the log cut: after
    [regenerateResponse] on an assistant message with a user message
    before it, Stop, and the request settling with the cancellation
    error, the visible log and the stored log are the messages before the
    target; the target and what followed it are gone and no message
    takes their place. *)
Theorem stopped_regeneration_leaves_log_cut (u : string)
    (uuidv4 clock : nat → string) (messageId : string) (w : World)
    (i : nat) (m : Message) (a : Conversation) :
  list_find (λ msg, msg_id msg = messageId) (messages (st w)) = Some (i, m) →
  sender m = ai →
  (∃ j x, (j < i)%nat ∧ messages (st w) !! j = Some x ∧ sender x = user) →
  activeConversation (st w) = Some a →
  ∃ w1 f,
    regenerateResponse_start (Some u) uuidv4 clock messageId w
    = Awaiting w1 f
    ∧ let w2 := render (Some u) (stopResponse (render (Some u) w1)) in
      let w3 :=
        render (Some u)
          (regenerateResponse_resume uuidv4 clock f AbortError w2)
      in
      rf_controller f ∈ aborted w2
      ∧ messages (st w3) = take i (messages (st w))
      ∧ localStorage w3 !! messages_key u (conv_id a)
        = Some (JsonMessages (take i (messages (st w))))
      ∧ (length (messages (st w3)) < length (messages (st w)))%nat.
Proof.
  intros Hfind Hai Huser Ha.
  destruct (found_split _ _ _ _ Hfind) as (_ & Hlt & _ & _).
  destruct (regenerateResponse_start_found u uuidv4 clock messageId w i m a
              Hfind Hai Huser Ha)
    as (w1 & f & Hstart & Henv & Hcid & Hupd & Hm1 & Hls1 & Ha1 & Hp1).
  assert (Hc1 : abortController (st w1) = Some (rf_controller f)).
  { unfold regenerateResponse_start in Hstart. rewrite Hfind in Hstart.
    destruct (decide (sender m ≠ ai)); [done|]. rewrite Ha in Hstart.
    unfold newAbortController in Hstart. cbv beta iota zeta in Hstart.
    destruct (user_before _ _) as [[k um]|]; [|done].
    injection Hstart as <- <-. cbn.
    by destruct (active_is _ _). }
  exists w1, f. split; [done|]. intros w2 w3.
  destruct (render_shape (Some u) w1) as (msgs & l & lum & Hw1').
  set (w1' := render (Some u) w1) in *.
  assert (Hstop : stopResponse w1'
                  = setProcessingConversationId None
                      (setAbortController None
                         (setIsLoading false (abort (rf_controller f) w1')))).
  { unfold stopResponse. rewrite Hw1'. cbn. by rewrite Hc1. }
  set (ws := stopResponse w1') in *.
  assert (Hm2 : messages (st w2) = take i (messages (st w))).
  { apply (render_keeps_log u ws a).
    - rewrite Hstop, Hw1'. cbn. by rewrite Ha1.
    - rewrite Hstop. cbn. subst w1'.
      apply (render_keeps_log u w1 a); [by rewrite Ha1 | done | done].
    - rewrite Hstop, Hw1'. cbn. done. }
  destruct (render_fields (Some u) ws)
    as (Hl2 & Ha2 & _ & Hp2 & Hc2 & Hb2 & Hr2 & Hrd2).
  fold w2 in Hl2, Ha2, Hp2, Hc2, Hb2, Hr2, Hrd2.
  assert (Hls2 : localStorage w2 !! messages_key u (conv_id a)
                 = Some (JsonMessages (take i (messages (st w))))).
  { rewrite Hl2, Hstop, Hw1'. cbn. done. }
  assert (Hact2 : conv_id <$> activeConversation (st w2) = Some (conv_id a)).
  { rewrite Ha2, Hstop, Hw1'. cbn. by rewrite Ha1. }
  set (wr := regenerateResponse_resume uuidv4 clock f AbortError w2)
    in *.
  destruct (finally_block_fields (rf_env f) (rf_currentConversationId f) w2)
    as (_ & _ & _ & Hmr & Har & Hlr).
  assert (Hm3 : messages (st w3) = take i (messages (st w))).
  { apply (render_keeps_log u wr a).
    - subst wr. unfold regenerateResponse_resume. by rewrite Har.
    - subst wr. unfold regenerateResponse_resume. by rewrite Hmr.
    - subst wr. unfold regenerateResponse_resume. by rewrite Hlr. }
  split_and!.
  - rewrite Hb2, Hstop. cbn. apply elem_of_union. left.
    by apply elem_of_singleton.
  - done.
  - destruct (render_fields (Some u) wr) as (Hl3 & _). fold w3 in Hl3.
    rewrite Hl3. subst wr. unfold regenerateResponse_resume.
    by rewrite Hlr.
  - rewrite Hm3, length_take. lia.
Qed.

Lemma stopped_regeneration_leaves_log_cut_witness :
  ∃ w1 f,
    regenerateResponse_start (Some "u") sample_uuid sample_clock "m2"
      sample_long_world = Awaiting w1 f
    ∧ messages
        (st (render (Some "u")
               (regenerateResponse_resume sample_uuid
                  sample_clock f AbortError
                  (render (Some "u")
                     (stopResponse (render (Some "u") w1))))))
      = [sample_question].
Proof.
  destruct (stopped_regeneration_leaves_log_cut "u" sample_uuid sample_clock
              "m2" sample_long_world 1 sample_answer sample_A)
    as (w1 & f & Hs & H);
    [reflexivity | reflexivity
     | exists 0, sample_question; split_and!; [lia | reflexivity..]
     | reflexivity |].
  exists w1, f. split; [exact Hs|].
  cbv zeta in H. destruct H as (_ & Hm & _). exact Hm.
Defined.

(** ** Deleting a conversation *)

Lemma deleteConversation_deps (u cid : string) (w : World) :
  rendered (deleteConversation (Some u) cid w) = rendered w
  ∧ (active_is (st w) cid = true →
     activeRef (deleteConversation (Some u) cid w) = S (activeRef w)).
Proof.
  unfold deleteConversation. split.
  - by destruct (abortController (st w)),
      (bool_decide (processingConversationId (st w) = Some cid)),
      (active_is _ _).
  - intros Hai. rewrite Hai.
    unfold active_is in Hai. apply bool_decide_eq_true in Hai.
    destruct (activeConversation (st w)) as [c|] eqn:Hc; [|done].
    destruct (abortController (st w)),
      (bool_decide (processingConversationId (st w) = Some cid)),
      (list_find _ _); cbn; by rewrite ?Hc.
Qed.

(** X13. Deleting the active conversation, in a settled component of a
    signed-in user: the conversations with its id leave the store and the
    persisted index, its message key is removed, and the first
    conversation of the store with another id becomes active, with its
    stored log shown; when there is none, no conversation is active and
    the visible log is empty. *)
Theorem delete_active_falls_back (u : string) (w : World)
    (a : Conversation) :
  activeConversation (st w) = Some a →
  settled w →
  let cid := conv_id a in
  let w' := render (Some u) (deleteConversation (Some u) cid w) in
  (∀ c, c ∈ conversations (st w') ↔
        c ∈ conversations (st w) ∧ conv_id c ≠ cid)
  ∧ localStorage w' !! conversations_key u
    = Some (JsonConversations (conversations (st w')))
  ∧ localStorage w' !! messages_key u cid = None
  ∧ (∀ j b,
       list_find (λ conv, conv_id conv ≠ cid) (conversations (st w))
       = Some (j, b) →
       activeConversation (st w') = Some b
       ∧ messages (st w')
         = stored_messages (localStorage w !! messages_key u (conv_id b)))
  ∧ (list_find (λ conv, conv_id conv ≠ cid) (conversations (st w)) = None →
     activeConversation (st w') = None ∧ messages (st w') = []).
Proof.
  intros Ha Hs cid w'.
  assert (Hai : active_is (st w) cid = true).
  { unfold active_is. rewrite Ha. by apply bool_decide_eq_true. }
  destruct (deleteConversation_store (Some u) cid w) as [Hc Hact].
  rewrite Hai in Hact.
  pose proof (deleteConversation_storage u cid w) as Hls.
  destruct (deleteConversation_deps u cid w) as [Hr Hbump].
  specialize (Hbump Hai).
  set (wd := deleteConversation (Some u) cid w) in *.
  assert (Hdeps : deps wd ≠ rendered wd).
  { rewrite Hr, Hs. by apply bumped. }
  destruct (render_fields (Some u) wd) as (Hl' & Ha' & Hc' & _).
  fold w' in Hl', Ha', Hc'.
  split_and!.
  - intros c. rewrite Hc', Hc, list_elem_of_filter. tauto.
  - by rewrite Hl', Hls, Hc', Hc, lookup_insert_eq.
  - rewrite Hl', Hls, lookup_insert_ne, lookup_delete_eq; [done|].
    intros Heq. symmetry in Heq.
    by apply messages_key_not_conversations in Heq.
  - intros j b Hfind. rewrite Hfind in Hact.
    change (activeConversation (st wd) = Some b) in Hact.
    split; [by rewrite Ha'|].
    unfold w'. rewrite (render_reloads u wd b Hdeps Hact), Hls.
    apply list_find_Some in Hfind as (_ & Hne & _).
    rewrite lookup_insert_ne, lookup_delete_ne; [done | |].
    + intros Heq%messages_key_inj. by apply Hne.
    + intros Heq. symmetry in Heq.
      by apply messages_key_not_conversations in Heq.
  - intros Hfind. rewrite Hfind in Hact.
    change (activeConversation (st wd) = None) in Hact.
    split; [by rewrite Ha'|].
    unfold w'.
    by rewrite render_messages, decide_False, message_effect_messages, Hact.
Qed.

Lemma delete_active_falls_back_witness :
  let w' := render (Some "u")
              (deleteConversation (Some "u") "A"
                 (sample_world [sample_question; sample_answer])) in
  activeConversation (st w') = Some sample_B
  ∧ messages (st w') = []
  ∧ localStorage w' !! messages_key "u" "A" = None.
Proof.
  destruct (delete_active_falls_back "u"
              (sample_world [sample_question; sample_answer]) sample_A)
    as (_ & _ & Hgone & Hnext & _); [reflexivity | reflexivity |].
  cbv zeta in *.
  destruct (Hnext 1 sample_B) as [Ha Hm]; [reflexivity|].
  split_and!; [exact Ha | | exact Hgone].
  etransitivity; [exact Hm | reflexivity].
Defined.

Lemma finally_block_store (env : RState) (cid : string) (w : World) :
  conversations (st (finally_block env cid w)) = conversations (st w).
Proof. unfold finally_block. by destruct (active_is env cid). Qed.



(** ** Signing out *)

(** X15. When the user is no longer authenticated the effect empties the
    conversation store and the active pointer; after the render the
    visible log is empty too, and storage is what it was. *)
Theorem sign_out_clears_memory_only (currentUser : option string)
    (uuidv4 clock : nat → string) (isAuthenticated : bool) (w : World) :
  isAuthenticated = false ∨ currentUser = None →
  settled w →
  (activeConversation (st w) = None → messages (st w) = []) →
  let w' :=
    render currentUser
      (auth_effect currentUser uuidv4 clock isAuthenticated w) in
  conversations (st w') = []
  ∧ activeConversation (st w') = None
  ∧ messages (st w') = []
  ∧ localStorage w' = localStorage w.
Proof.
  intros Hout Hs Hm w'.
  assert (Heff : auth_effect currentUser uuidv4 clock isAuthenticated w
                 = setActiveConversation None (setConversations [] w)).
  { unfold auth_effect. by destruct Hout as [-> | ->]; [|rewrite andb_false_r]. }
  subst w'. rewrite Heff.
  destruct (render_fields currentUser
              (setActiveConversation None (setConversations [] w)))
    as (-> & -> & -> & _).
  split_and!; try done.
  unfold render, settled, deps in *.
  destruct (activeConversation (st w)) as [c|] eqn:Hc.
  - rewrite decide_False.
    + cbn. by rewrite ?Hc.
    + cbn. rewrite Hc, Hs. intros Heq. injection Heq. lia.
  - destruct (decide _); cbn; rewrite ?Hc; cbn; [by apply Hm | done].
Qed.

Lemma sign_out_clears_memory_only_witness :
  let w' :=
    render None
      (auth_effect None sample_uuid sample_clock false
         (sample_world [sample_question; sample_answer])) in
  messages (st w') = []
  ∧ localStorage w'
    = localStorage (sample_world [sample_question; sample_answer]).
Proof.
  destruct (sign_out_clears_memory_only None sample_uuid sample_clock false
              (sample_world [sample_question; sample_answer]))
    as (_ & _ & Hm & Hl); [by left | reflexivity | discriminate |].
  split; [exact Hm | exact Hl].
Defined.

(** ** What is never written *)

Lemma prefix_active_key (u : string) :
  String.prefix (user_prefix u) (active_key u) = true.
Proof.
  unfold user_prefix, active_key.
  change "_activeConversation" with ("_" +:+ "activeConversation").
  rewrite <- append_assoc. apply prefix_app.
Qed.

Lemma foreign_insert (u own key : string) (v : Stored)
    (ls : gmap string Stored) :
  String.prefix (user_prefix u) own = true →
  String.prefix (user_prefix u) key = false →
  <[own := v]> ls !! key = ls !! key.
Proof. intros Ho Hk. apply lookup_insert_ne. congruence. Qed.

Lemma foreign_delete (u own key : string) (ls : gmap string Stored) :
  String.prefix (user_prefix u) own = true →
  String.prefix (user_prefix u) key = false →
  delete own ls !! key = ls !! key.
Proof. intros Ho Hk. apply lookup_delete_ne. congruence. Qed.

Create HintDb own_keys.
#[local] Hint Resolve prefix_messages_key prefix_conversations_key
  prefix_active_key : own_keys.

Lemma resume_body_storage (clock : nat → string) (cid : string)
    (convs : list Conversation) (w : World) :
  localStorage (touch clock cid convs w).2 = localStorage w.
Proof. destruct (touch_world clock cid convs w) as [n ->]. done. Qed.

Lemma handle_foreign_keys (u : string) (uuidv4 clock : nat → string)
    (a : Action) (w : World) (key : string) :
  sent_by (Some u) a →
  String.prefix (user_prefix u) key = false →
  localStorage (handle (Some u) uuidv4 clock a w) !! key
  = localStorage w !! key.
Proof.
  intros Hby Hk. destruct a; cbn [handle]; cbn in Hby.
  - unfold loadUserConversations.
    destruct (stored_conversations _) as [|c0 l];
      destruct (if truthy _ then _ else _); cbn; try done;
      unfold saveToLocalStorage;
      by rewrite (foreign_insert u) by auto with own_keys.
  - cbn. unfold saveToLocalStorage.
    by rewrite (foreign_insert u) by auto with own_keys.
  - unfold setActiveConversationWithStorage.
    destruct (active_is _ _); [done|]. cbn.
    by rewrite (foreign_insert u) by auto with own_keys.
  - rewrite deleteConversation_storage.
    by rewrite (foreign_insert u), (foreign_delete u) by auto with own_keys.
  - unfold deleteAllConversations.
    destruct (abortController (st w)),
      (truthy (processingConversationId (st w))); cbn;
      unfold saveToLocalStorage;
      rewrite (foreign_insert u) by auto with own_keys;
      by rewrite lookup_after_removal, Hk.
  - unfold provideMessageFeedback.
    destruct (list_find _ _) as [[i m]|]; [|done].
    destruct (decide _); [done|].
    destruct (activeConversation (st w)); cbn; [|done].
    unfold saveToLocalStorage.
    by rewrite (foreign_insert u) by auto with own_keys.
  - unfold stopResponse. by destruct (abortController (st w)).
  - unfold sendMessage_start.
    destruct (activeConversation (st w)) as [c|]; cbn;
      unfold saveToLocalStorage.
    + destruct (decide (length (messages (st w)) = 0)),
        (active_is (st w) (conv_id c)); cbn;
        by rewrite ?(foreign_insert u) by auto with own_keys.
    + by rewrite (foreign_insert u) by auto with own_keys.
  - unfold regenerateResponse_start.
    destruct (list_find _ _) as [[i m]|]; [|done].
    destruct (decide _); [done|].
    destruct (activeConversation (st w)) as [c|]; [|done].
    unfold newAbortController. cbv beta iota zeta.
    destruct (user_before _ _) as [[k um]|].
    + cbn. unfold saveToLocalStorage.
      destruct (active_is (st w) (conv_id c)); cbn;
        by rewrite (foreign_insert u) by auto with own_keys.
    + cbn [world_of]. unfold finally_block, catch_block, saveToLocalStorage.
      destruct (active_is (st w) (conv_id c)); cbn;
        by rewrite (foreign_insert u) by auto with own_keys.
  - unfold sendMessage_resume, finally_block, catch_block,
      saveToLocalStorage.
    rewrite Hby. destruct o as [reply| |]; cbn.
    + pose proof (resume_body_storage clock (sf_currentConversationId f)
                    (conversations (sf_env f)) (tick (tick w))) as Ht.
      destruct (touch clock _ _ _) as [convs' wt]. cbn in Ht.
      destruct (active_is _ _); cbn;
        by rewrite !(foreign_insert u), Ht by auto with own_keys.
    + by destruct (active_is _ _).
    + destruct (active_is _ _); cbn;
        by rewrite (foreign_insert u) by auto with own_keys.
  - unfold regenerateResponse_resume, finally_block, catch_block,
      saveToLocalStorage.
    rewrite Hby. destruct o as [reply| |]; cbn.
    + pose proof (resume_body_storage clock (rf_currentConversationId f)
                    (conversations (rf_env f)) (tick (tick w))) as Ht.
      destruct (touch clock _ _ _) as [convs' wt]. cbn in Ht.
      destruct (active_is _ _); cbn;
        by rewrite !(foreign_insert u), Ht by auto with own_keys.
    + by destruct (active_is _ _).
    + destruct (active_is _ _); cbn;
        by rewrite (foreign_insert u) by auto with own_keys.
Qed.

(** X16. For a signed-in user no action or render, and no reply of a
    request that user sent, ever writes or removes a key that is not
    prefixed by the user's id and an underscore: along any sequence of
    them such a key (the preferred language is one) holds what it
    held. *)
Theorem foreign_keys_untouched (u : string) (uuidv4 clock : nat → string)
    (l : list Action) (w : World) (key : string) :
  Forall (sent_by (Some u)) l →
  String.prefix (user_prefix u) key = false →
  localStorage (acts (Some u) uuidv4 clock l w) !! key
  = localStorage w !! key.
Proof.
  intros Hby Hk. revert w.
  induction Hby as [|a l Ha Hl IH]; intros w; [done|].
  cbn. etransitivity; [apply IH|]. unfold act.
  destruct (render_fields (Some u) (handle (Some u) uuidv4 clock a w))
    as (-> & _).
  by apply handle_foreign_keys.
Qed.

Lemma foreign_keys_untouched_witness :
  localStorage
    (acts (Some "u") sample_uuid sample_clock
       [DoSend "Hello"; SendSettles sample_frame Failed; DoDeleteAll;
        DoSwitch sample_B]
       (sample_world []))
    !! "preferredLanguage"
  = Some (RawString "fr").
Proof.
  etransitivity;
    [apply (foreign_keys_untouched "u" sample_uuid sample_clock);
     [repeat constructor | reflexivity]|].
  reflexivity.
Defined.

Lemma handle_signed_out (uuidv4 clock : nat → string) (a : Action)
    (w : World) :
  sent_by None a →
  localStorage (handle None uuidv4 clock a w) = localStorage w.
Proof.
  intros Hby. destruct a; cbn [handle]; cbn in Hby; try done.
  - unfold setActiveConversationWithStorage. by destruct (active_is _ _).
  - unfold deleteConversation.
    by destruct (abortController (st w)),
      (bool_decide (processingConversationId (st w) = Some conversationId)),
      (active_is _ _).
  - unfold deleteAllConversations.
    by destruct (abortController (st w)),
      (truthy (processingConversationId (st w))).
  - unfold provideMessageFeedback.
    destruct (list_find _ _) as [[i m]|]; [|done].
    destruct (decide _); [done|].
    by destruct (activeConversation (st w)).
  - unfold stopResponse. by destruct (abortController (st w)).
  - unfold sendMessage_start.
    destruct (activeConversation (st w)) as [c|]; cbn; [|done].
    by destruct (decide (length (messages (st w)) = 0)),
      (active_is (st w) (conv_id c)).
  - unfold regenerateResponse_start.
    destruct (list_find _ _) as [[i m]|]; [|done].
    destruct (decide _); [done|].
    destruct (activeConversation (st w)) as [c|]; [|done].
    unfold newAbortController. cbv beta iota zeta.
    destruct (user_before _ _) as [[k um]|]; cbn.
    + by destruct (active_is (st w) (conv_id c)).
    + unfold finally_block. by destruct (active_is (st w) (conv_id c)).
  - unfold sendMessage_resume, finally_block. rewrite Hby.
    destruct o as [reply| |]; cbn.
    + pose proof (resume_body_storage clock (sf_currentConversationId f)
                    (conversations (sf_env f)) (tick (tick w))) as Ht.
      destruct (touch clock _ _ _) as [convs' wt]. cbn in Ht.
      by destruct (active_is _ _).
    + by destruct (active_is _ _).
    + by destruct (active_is _ _).
  - unfold regenerateResponse_resume, finally_block. rewrite Hby.
    destruct o as [reply| |]; cbn.
    + pose proof (resume_body_storage clock (rf_currentConversationId f)
                    (conversations (rf_env f)) (tick (tick w))) as Ht.
      destruct (touch clock _ _ _) as [convs' wt]. cbn in Ht.
      by destruct (active_is _ _).
    + by destruct (active_is _ _).
    + by destruct (active_is _ _).
Qed.

(** X17. With no signed-in user ([currentUser] is [null]) no action and
    no render persists anything, nor does the reply of a request sent
    while no user was signed in: along any sequence of them storage stays
    exactly what it was. *)
Theorem signed_out_persists_nothing (uuidv4 clock : nat → string)
    (l : list Action) (w : World) :
  Forall (sent_by None) l →
  localStorage (acts None uuidv4 clock l w) = localStorage w.
Proof.
  intros Hby. revert w.
  induction Hby as [|a l Ha Hl IH]; intros w; [done|].
  cbn. etransitivity; [apply IH|]. unfold act.
  destruct (render_fields None (handle None uuidv4 clock a w)) as (-> & _).
  by apply handle_signed_out.
Qed.

Lemma signed_out_persists_nothing_witness :
  localStorage
    (acts None sample_uuid sample_clock
       [DoSend "Hello"; DoCreate None; DoDeleteAll; DoFeedback "m2" true;
        DoSwitch sample_B]
       (sample_world [sample_question; sample_answer]))
  = localStorage (sample_world [sample_question; sample_answer]).
Proof.
  apply (signed_out_persists_nothing sample_uuid sample_clock).
  repeat constructor.
Defined.

(** ** The last user message *)

Lemma filter_no_user (l : list Message) :
  (∀ x, x ∈ l → sender x ≠ user) → List.filter is_user l = [].
Proof.
  induction l as [|x l IH]; intros Hno; [done|]. cbn.
  unfold is_user at 1. rewrite bool_decide_false by (apply Hno; by left).
  apply IH. intros y Hy. apply Hno. by right.
Qed.

(** X18. [loadConversationMessages] for a signed-in user shows the log
    stored under the conversation's key (the empty log when the key is
    absent) and sets the last user message to the content of the last
    message of that log sent by the user, or to the empty string when the
    log has none. *)
Theorem load_recomputes_last_user_message (u cid : string) (w : World) :
  let stored := stored_messages (localStorage w !! messages_key u cid) in
  let w' := loadConversationMessages (Some u) cid w in
  messages (st w') = stored
  ∧ (localStorage w !! messages_key u cid = None → messages (st w') = [])
  ∧ (∀ before m after,
       stored = before ++ m :: after →
       sender m = user →
       (∀ x, x ∈ after → sender x ≠ user) →
       lastUserMessage (st w') = content m)
  ∧ ((∀ x, x ∈ stored → sender x ≠ user) → lastUserMessage (st w') = "").
Proof.
  intros stored w'. split_and!.
  - apply loadConversationMessages_messages.
  - intros Hk. subst w'. rewrite loadConversationMessages_messages.
    by rewrite Hk.
  - intros before m after Hst Hu Hafter. subst w'.
    unfold loadConversationMessages, getFromLocalStorage. fold stored.
    rewrite Hst, List.filter_app. cbn.
    unfold is_user at 2. rewrite bool_decide_true by done.
    rewrite (filter_no_user after Hafter), last_snoc. done.
  - intros Hno. subst w'.
    unfold loadConversationMessages, getFromLocalStorage. fold stored.
    by rewrite (filter_no_user stored Hno).
Qed.

Lemma load_recomputes_last_user_message_witness :
  lastUserMessage
    (st (loadConversationMessages (Some "u") "A" sample_long_world))
  = "Hello".
Proof.
  destruct (load_recomputes_last_user_message "u" "A" sample_long_world)
    as (_ & _ & Hlast & _).
  apply (Hlast [] sample_question [sample_answer; sample_more]);
    [reflexivity | reflexivity |].
  intros x Hx. vm_compute in Hx.
  apply elem_of_cons in Hx as [->|Hx]; [discriminate|].
  apply elem_of_cons in Hx as [->|Hx]; [discriminate|].
  by apply elem_of_nil in Hx.
Defined.

(** ** The focus guard of a reply *)

(** C1. The guard of the reply path of [sendMessage] compares the
    [activeConversation] of the closure with an id taken from that same
    closure, so it holds whatever conversation is shown when the reply
    resolves.  After a send on [A], in any later state where another
    conversation [B] is active, the resolving reply persists [A]'s log
    with the reply under [A]'s key and sets the visible log to it, [B]
    staying active; and when the pending marker was already cleared and
    no render is owed, the render that follows changes nothing, so [A]'s
    log stays on screen under [B]. *)
Theorem stale_reply_overwrites_visible_log (u : string)
    (uuidv4 clock : nat → string) (text reply : string) (w : World)
    (A : Conversation) :
  activeConversation (st w) = Some A →
  ∃ w1 f um,
    sendMessage_start (Some u) uuidv4 clock text w = Awaiting w1 f
    ∧ sender um = user ∧ content um = text
    ∧ ∀ w' B,
        activeConversation (st w') = Some B →
        conv_id B ≠ conv_id A →
        let w4 := sendMessage_resume uuidv4 clock f (Resolved reply) w' in
        ∃ am,
          sender am = ai ∧ content am = reply
          ∧ localStorage w4 !! messages_key u (conv_id A)
            = Some (JsonMessages (messages (st w) ++ [um; am]))
          ∧ activeConversation (st w4) = Some B
          ∧ messages (st w4) = messages (st w) ++ [um; am]
          ∧ (settled w' → processingConversationId (st w') = None →
             activeConversation (st (render (Some u) w4)) = Some B
             ∧ messages (st (render (Some u) w4))
               = messages (st w) ++ [um; am]).
Proof.
  intros HA.
  destruct (sendMessage_start_active u uuidv4 clock text w A HA)
    as (w1 & f & um & Hstart & Henv & Hcid & Hupd & Hsu & Hcu & _).
  exists w1, f, um. split_and!; [done..|]. intros w' B HB Hne w4.
  pose proof (sendMessage_start_user _ _ _ _ _ _ _ Hstart) as Hfu.
  assert (Hguard : active_is (sf_env f) (sf_currentConversationId f) = true).
  { unfold active_is. rewrite Henv, Hcid, HA. by apply bool_decide_eq_true. }
  destruct (sendMessage_resume_resolved u uuidv4 clock f reply w' Hfu Hguard)
    as (am & convs' & k & Hres & Ham & Hcm & _).
  fold w4 in Hres. exists am.
  assert (Hm4 : messages (st w4) = messages (st w) ++ [um; am]).
  { rewrite Hres. cbn. by rewrite Hupd, <- app_assoc. }
  split_and!; try done.
  - rewrite Hres. cbn. rewrite Hcid, lookup_insert_eq, Hupd.
    by rewrite <- app_assoc.
  - by rewrite Hres.
  - intros Hs Hp.
    assert (Hsame : render (Some u) w4 = w4).
    { unfold render. rewrite decide_True; [done|].
      unfold settled in Hs. rewrite Hres. unfold deps in *. cbn.
      by rewrite Hs, Hp. }
    rewrite Hsame. split; [by rewrite Hres | done].
Qed.

Lemma stale_reply_overwrites_visible_log_witness :
  ∃ w1 f um am,
    sendMessage_start (Some "u") sample_uuid sample_clock "Hello"
      (sample_world []) = Awaiting w1 f
    ∧ content um = "Hello" ∧ content am = "late"
    ∧ let w4 :=
        render (Some "u")
          (sendMessage_resume sample_uuid sample_clock f (Resolved "late")
             sample_crossed) in
      conv_id <$> activeConversation (st w4) = Some "B"
      ∧ messages (st w4) = [um; am].
Proof.
  destruct (stale_reply_overwrites_visible_log "u" sample_uuid sample_clock
              "Hello" "late" (sample_world []) sample_A)
    as (w1 & f & um & Hs & _ & Hcu & H); [reflexivity|].
  destruct (H sample_crossed (with_title "Hi" sample_B))
    as (am & _ & Hca & _ & _ & _ & Hrender);
    [vm_compute; reflexivity | discriminate |].
  destruct Hrender as [Ha Hm];
    [vm_compute; reflexivity | vm_compute; reflexivity |].
  exists w1, f, um, am. split_and!; [exact Hs | exact Hcu | exact Hca |].
  cbv zeta. split; [|exact Hm].
  rewrite Ha. reflexivity.
Defined.

(** ** Stop, for any request *)

(** C2, amended.  Stop signals the handle held in [abortController], that
    of the most recent send, and clears the pending marker, the handle
    and the loading indicator at once, leaving the visible log and
    storage as they are.  When a request settles with the cancellation
    error, in whatever state, the settle appends nothing: the visible
    log, the store and storage are those of before, also after the
    render when the component was at rest with its log mirroring
    storage.  On the trace send, Stop, cancelled settle, the visible and
    the persisted log are the log of the send followed by the user's
    message. *)
Theorem stop_discards_cancelled_reply (u : string)
    (uuidv4 clock : nat → string) (text : string) (w : World)
    (A : Conversation) :
  activeConversation (st w) = Some A →
  ∃ w1 f um,
    sendMessage_start (Some u) uuidv4 clock text w = Awaiting w1 f
    ∧ sender um = user ∧ content um = text
    ∧ abortController (st w1) = Some (sf_controller f)
    ∧ (∀ ws, abortController (st ws) = Some (sf_controller f) →
         sf_controller f ∈ aborted (stopResponse ws)
         ∧ isLoading (st (stopResponse ws)) = false
         ∧ processingConversationId (st (stopResponse ws)) = None
         ∧ abortController (st (stopResponse ws)) = None
         ∧ messages (st (stopResponse ws)) = messages (st ws)
         ∧ localStorage (stopResponse ws) = localStorage ws)
    ∧ (∀ wl,
         let w3 := sendMessage_resume uuidv4 clock f AbortError wl in
         messages (st w3) = messages (st wl)
         ∧ conversations (st w3) = conversations (st wl)
         ∧ localStorage w3 = localStorage wl
         ∧ localStorage (render (Some u) w3) = localStorage wl
         ∧ (settled wl → visible_mirrors_storage u wl →
            messages (st (render (Some u) w3)) = messages (st wl)))
    ∧ let w2 := render (Some u) (stopResponse (render (Some u) w1)) in
      let w3 :=
        render (Some u)
          (sendMessage_resume uuidv4 clock f AbortError w2) in
      sf_controller f ∈ aborted w2
      ∧ isLoading (st w2) = false
      ∧ processingConversationId (st w2) = None
      ∧ abortController (st w2) = None
      ∧ messages (st w2) = messages (st w) ++ [um]
      ∧ messages (st w3) = messages (st w) ++ [um]
      ∧ localStorage w3 = localStorage w2
      ∧ localStorage w3 !! messages_key u (conv_id A)
        = Some (JsonMessages (messages (st w) ++ [um])).
Proof.
  intros HA.
  destruct (stop_right_after_send u uuidv4 clock text w A HA)
    as (w1 & f & um & Hstart & Hsu & Hcu & Htrace).
  destruct (sendMessage_start_active u uuidv4 clock text w A HA)
    as (w1' & f' & um' & Hstart' & _ & _ & _ & _ & _ & _ & _ & _ & _
        & Hab1 & _).
  rewrite Hstart in Hstart'. injection Hstart' as <- <-.
  exists w1, f, um. split_and!; [done.. | | | exact Htrace].
  - intros ws Hws. unfold stopResponse. rewrite Hws. cbn.
    split_and!; try done. apply elem_of_union. left.
    by apply elem_of_singleton.
  - intros wl w3.
    destruct (finally_block_fields (sf_env f) (sf_currentConversationId f) wl)
      as (Hr & Hrf & Hp & Hm & Ha & Hl).
    pose proof (finally_block_store (sf_env f) (sf_currentConversationId f)
                  wl) as Hc.
    change (finally_block (sf_env f) (sf_currentConversationId f) wl)
      with w3 in Hr, Hrf, Hp, Hm, Ha, Hl, Hc.
    destruct (render_fields (Some u) w3) as (Hl3 & Ha3 & _).
    split_and!; try done.
    + by rewrite Hl3.
    + intros Hs Hmir.
      destruct (settles_mirror u wl w3 Hs Hmir Hr Hrf Hp) as [_ Hmir3];
        [done|].
      unfold visible_mirrors_storage in *.
      rewrite Ha3, Hl3, Ha, Hl in Hmir3.
      destruct (activeConversation (st wl)); congruence.
Qed.

Lemma stop_discards_cancelled_reply_witness :
  ∃ w1 f um,
    sendMessage_start (Some "u") sample_uuid sample_clock "Hello"
      (sample_world []) = Awaiting w1 f
    ∧ sender um = user
    ∧ let w2 := render (Some "u") (stopResponse (render (Some "u") w1)) in
      let w3 :=
        render (Some "u")
          (sendMessage_resume sample_uuid sample_clock f AbortError w2) in
      messages (st w3) = [um] ∧ localStorage w3 = localStorage w2.
Proof.
  destruct (stop_discards_cancelled_reply "u" sample_uuid sample_clock
              "Hello" (sample_world []) sample_A)
    as (w1 & f & um & Hs & Hu & _ & _ & _ & _ & H); [reflexivity|].
  exists w1, f, um. split_and!; [exact Hs | exact Hu |].
  cbv zeta in *. destruct H as (_ & _ & _ & _ & _ & Hm & Hl & _).
  split; [exact Hm | exact Hl].
Defined.

(** ** Delete all and a displaced request *)

(** C7, the claim as stated, on the sample world: a send on ["A"], a
    switch to ["B"] and a send on ["B"] leave two requests in flight, of
    which [abortController] holds the second.  Delete-all signals that
    one only; the reply of the first then resolves and brings back the
    conversations ["A"] and ["B"] and the message key of ["A"]. *)
Lemma delete_all_displaced_request_counterexample :
  elements (aborted sample_cleared) = [sf_controller sample_frame_B]
  ∧ sf_controller sample_frame ≠ sf_controller sample_frame_B
  ∧ length (conversations (st sample_cleared)) = 1
  ∧ let w' := act (Some "u") sample_uuid sample_clock
                (SendSettles sample_frame (Resolved "late")) sample_cleared in
    conv_id <$> conversations (st w') = ["A"; "B"]
    ∧ is_Some (localStorage w' !! "u_messages_A").
Proof.
  split_and!; [vm_compute; reflexivity | vm_compute; discriminate
               | vm_compute; reflexivity |].
  cbv zeta. split; [vm_compute; reflexivity|].
  vm_compute. by eexists.
Qed.
